(** * A pipeline-parallel NCE language model: [model.py] and [main.py]

    The development embeds the two Python files shallowly.

    - Scalars are IEEE-754 values ([spec_float]): binary32 inside tensors,
      binary64 for Python floats.  NaN, the infinities and the signed zeros
      are therefore part of the model, and so is the truth value Python
      gives a one-element tensor.
    - A [Tensor] is a shape with row-major storage, like a torch tensor.
    - Code that mutates state or raises runs in the monad [M]: a state
      transformer that returns either a value or the exception raised, and
      in both cases the state reached.
    - The numeric bodies of the embedding, the LSTM, the linear projection
      and the NCE criterion are opaque: they are Section variables.
    - Modules of the repository that are not part of the two files
      ([utils.get_mask], [pipeline_model.Pipeline]) are modelled from the
      specification and marked as such. *)

From Stdlib Require Import ZArith List Bool Lia SpecFloat.
From stdpp Require Import base gmap strings.
Import ListNotations.

(** ** Exceptions and the state-and-exception monad *)

Inductive exn :=
| AttributeError
| IndexError
| TypeError
| ValueError
| RuntimeError
| ZeroDivisionError
| OverflowError
| NotImplementedError
| PartitionMismatchError.

Inductive result (A : Type) :=
| Ok (a : A)
| Raise (e : exn).
Arguments Ok {A} a.
Arguments Raise {A} e.

Definition M (S A : Type) : Type := S -> result A * S.

Definition ret {S A} (a : A) : M S A := fun s => (Ok a, s).

Definition raise {S A} (e : exn) : M S A := fun s => (Raise e, s).

Definition bind {S A B} (c : M S A) (k : A -> M S B) : M S B :=
  fun s =>
    match c s with
    | (Ok a, s') => k a s'
    | (Raise e, s') => (Raise e, s')
    end.

Definition lift {S A} (r : result A) : M S A := fun s => (r, s).

Definition gets {S A} (f : S -> A) : M S A := fun s => (Ok (f s), s).

Definition modify {S} (f : S -> S) : M S unit := fun s => (Ok tt, f s).

Declare Scope monad_scope.
Delimit Scope monad_scope with monad.
Notation "x <- c1 ;; c2" := (bind c1 (fun x => c2))
  (at level 100, c1 at next level, right associativity) : monad_scope.
Notation "c1 ;;; c2" := (bind c1 (fun _ => c2))
  (at level 100, right associativity) : monad_scope.
Open Scope monad_scope.

(** A [for] loop over a list, threading an accumulator. *)
Fixpoint for_each {S A B} (xs : list A) (acc : B) (body : B -> A -> M S B)
  : M S B :=
  match xs with
  | [] => ret acc
  | x :: xs' => acc' <- body acc x ;; for_each xs' acc' body
  end.

(** ** IEEE-754 scalars *)

Module F32.
Definition prec : Z := 24.
Definition emax : Z := 128.
Definition of_Z (m : Z) : spec_float := binary_normalize prec emax m 0 false.
Definition exp2 (m e : Z) : spec_float := binary_normalize prec emax m e false.
Definition zero : spec_float := S754_zero false.
Definition one : spec_float := of_Z 1.
Definition add := SFadd prec emax.
Definition sub := SFsub prec emax.
Definition mul := SFmul prec emax.
Definition div := SFdiv prec emax.
(** Rounding of a Python float to the element type of a float tensor. *)
Definition round (x : spec_float) : spec_float :=
  match x with
  | S754_finite s m e => binary_round prec emax s m e
  | _ => x
  end.
End F32.

Module F64.
Definition prec : Z := 53.
Definition emax : Z := 1024.
Definition of_Z (m : Z) : spec_float := binary_normalize prec emax m 0 false.
Definition zero : spec_float := S754_zero false.
Definition add := SFadd prec emax.
Definition mul := SFmul prec emax.
Definition div := SFdiv prec emax.
(** A binary32 value read as a Python float: exact, only renormalised. *)
Definition of_f32 (x : spec_float) : spec_float :=
  match x with
  | S754_finite s m e => binary_round prec emax s m e
  | _ => x
  end.
End F64.


Definition is_zero (x : spec_float) : bool :=
  match x with S754_zero _ => true | _ => false end.

(** ** Tensors *)

Module Torch.

Inductive storage :=
| Floats (xs : list spec_float)
| Longs (xs : list Z)
| Bools (xs : list bool).

Record Tensor := mkTensor { shape : list nat; elems : storage }.

(** [x.size(d)] *)
Definition size (x : Tensor) (d : nat) : result nat :=
  match shape x !! d with
  | Some n => Ok n
  | None => Raise IndexError
  end.

(** A tensor of shape [[batch; time]] given by its rows. *)
Definition of_rows (time : nat) (rows : list (list spec_float)) : Tensor :=
  mkTensor [length rows; time] (Floats (concat rows)).

Definition scalar (x : spec_float) : Tensor := mkTensor [] (Floats [x]).

(** [x.item()] of a float tensor with one element, the only use the two
    files make of it: the element as a Python float. *)
Definition item (x : Tensor) : result spec_float :=
  match elems x with
  | Floats [v] => Ok (F64.of_f32 v)
  | Floats _ => Raise RuntimeError
  | _ => Raise TypeError
  end.

(** [bool(x)], the truth value Python's [not] and [if] ask a tensor for:
    defined for one element, which is true unless it is zero. *)
Definition truth (x : Tensor) : result bool :=
  match elems x with
  | Floats [v] => Ok (negb (is_zero v))
  | Longs [v] => Ok (negb (v =? 0)%Z)
  | Bools [b] => Ok b
  | _ => Raise RuntimeError
  end.

(** Entries of [xs] whose mask bit is set, in storage order. *)
Fixpoint select {A} (xs : list A) (mask : list bool) : list A :=
  match xs, mask with
  | x :: xs', b :: mask' =>
      if b then x :: select xs' mask' else select xs' mask'
  | _, _ => []
  end.

(** [torch.masked_select(x, mask)]: a one-dimensional tensor with the
    entries of [x] at which [mask] is true.  Operands of one shape are
    modelled, which is what [forward] passes; torch's broadcasting of a
    singleton dimension is not. *)
Definition masked_select (x mask : Tensor) : result Tensor :=
  match elems x, elems mask with
  | Floats xs, Bools bs =>
      if decide (shape x = shape mask)
      then let sel := select xs bs in
           Ok (mkTensor [length sel] (Floats sel))
      else Raise RuntimeError
  | _, Bools _ => Raise TypeError
  | _, _ => Raise RuntimeError
  end.

Definition sum_f32 (xs : list spec_float) : spec_float :=
  fold_left F32.add xs F32.zero.

(** [x.mean()]: the sum of all entries over their number; NaN for an empty
    tensor (0/0).  The summation order is the storage order. *)
Definition mean (x : Tensor) : result Tensor :=
  match elems x with
  | Floats xs =>
      Ok (scalar (F32.div (sum_f32 xs) (F32.of_Z (Z.of_nat (length xs)))))
  | _ => Raise RuntimeError
  end.

(** The global random generator: the uniform samples of [0, 1) it will
    hand out, and how many were drawn so far. *)
Record rng := mkRng { uniform_at : nat -> spec_float; drawn : nat }.

Definition next_uniform (g : rng) : spec_float * rng :=
  (uniform_at g (drawn g), mkRng (uniform_at g) (S (drawn g))).

(** Elementwise body of dropout in training mode: an entry is kept with
    probability [1 - p] and then scaled by [1 / (1 - p)], else zeroed. *)
Fixpoint dropout_elems (p : spec_float) (xs : list spec_float) (g : rng)
  : list spec_float * rng :=
  match xs with
  | [] => ([], g)
  | x :: xs' =>
      let (u, g') := next_uniform g in
      let keep := SFltb u (F32.sub F32.one p) in
      let factor :=
        if keep then F32.div F32.one (F32.sub F32.one p) else F32.zero in
      let (ys, g'') := dropout_elems p xs' g' in
      (F32.mul x factor :: ys, g'')
  end.

(** [nn.Dropout(p)] applied to [x]: the identity in evaluation mode. *)
Definition F_dropout (x : Tensor) (p : spec_float) (training : bool)
  : M rng Tensor :=
  if SFltb p F32.zero || SFltb F32.one p then raise ValueError
  else if training then
    match elems x with
    | Floats xs =>
        fun g => let (ys, g') := dropout_elems p xs g in
                 (Ok (mkTensor (shape x) (Floats ys)), g')
    | _ => raise RuntimeError
    end
  else ret x.

End Torch.
Export Torch.

(** ** [model.py] *)

Module Model.

(** The parameters of a module, in registration order. *)
Definition state_dict : Type := list Tensor.

(** Modelled from the spec: [utils.get_mask] is not among the sources.  The
    specification gives the mask entrywise, [mask[i, t] = t < length[i]],
    over [max_len] time steps: a boolean tensor of shape
    [[batch; max_len]]. *)
Definition get_mask (lengths : Tensor) (max_len : nat) : result Tensor :=
  match elems lengths with
  | Longs ls =>
      Ok (mkTensor [length ls; max_len]
            (Bools (flat_map
                      (fun l => map (fun t => (Z.of_nat t <? l)%Z)
                                    (seq 0 max_len)) ls)))
  | _ => Raise TypeError
  end.

(** The mutable state of an [RNNModel]: the mode flag that [train()] and
    [eval()] set, the dropout rate, the parameters, and the criterion's
    [loss_type] attribute. *)
Record RNNModel := mkRNNModel {
  training : bool;
  dropout : spec_float;
  weights : state_dict;
  loss_type : string
}.

(** The arithmetic mean of a list of binary32 values, as the
    specification words it: their sum over their number. *)
Definition arithmetic_mean (xs : list spec_float) : spec_float :=
  F32.div (fold_left F32.add xs F32.zero) (F32.of_Z (Z.of_nat (length xs))).

(** The entries of a [[batch; time]] tensor, given by its rows, at the
    valid positions [t < length[i]], in storage order. *)
Definition valid_entries (ls : list Z) (rows : list (list spec_float))
  : list spec_float :=
  concat (zip_with (fun l r => take (Z.to_nat l) r) ls rows).

(** What a stage of [self.layers] is called with: the incoming tensor and
    the extra positional arguments. *)
Definition layer : Type := Tensor -> list Tensor -> M rng Tensor.

Section Stages.

(** The opaque stage bodies.  Each reads the parameters; the LSTM also
    reads the mode and its dropout rate, the criterion its [loss_type]
    and the mode; they may draw from the generator and may raise. *)
Variable Embedding_forward : state_dict -> Tensor -> M rng Tensor.
Variable LSTM_forward :
  state_dict -> bool -> spec_float -> Tensor -> M rng Tensor.
Variable Linear_forward : state_dict -> Tensor -> M rng Tensor.
Variable IndexLinear_forward :
  state_dict -> string -> bool -> Tensor -> Tensor -> M rng Tensor.

Definition drop (m : RNNModel) (x : Tensor) : M rng Tensor :=
  F_dropout x (dropout m) (training m).

Definition encoder (m : RNNModel) (x : Tensor) : M rng Tensor :=
  Embedding_forward (weights m) x.

(** [self.rnn(x)], keeping the output and discarding the hidden state *)
Definition rnn (m : RNNModel) (x : Tensor) : M rng Tensor :=
  LSTM_forward (weights m) (training m) (dropout m) x.

Definition proj (m : RNNModel) (x : Tensor) : M rng Tensor :=
  Linear_forward (weights m) x.

(** [self.criterion(target, rnn_output)] *)
Definition criterion (m : RNNModel) (target rnn_output : Tensor)
  : M rng Tensor :=
  IndexLinear_forward (weights m) (loss_type m) (training m)
    target rnn_output.

(** [RNNModel._rnn] *)
Definition RNNModel_rnn (m : RNNModel) (input : Tensor) : M rng Tensor :=
  enc <- encoder m input ;;
  emb <- drop m enc ;;
  output <- rnn m emb ;;
  output <- proj m output ;;
  output <- drop m output ;;
  ret output.

(** [RNNModel.forward] *)
Definition RNNModel_forward (m : RNNModel) (input target lengths : Tensor)
  : M rng Tensor :=
  max_len <- lift (size input 1) ;;
  mask <- lift (get_mask lengths max_len) ;;
  rnn_output <- RNNModel_rnn m input ;;
  loss <- criterion m target rnn_output ;;
  loss <- lift (masked_select loss mask) ;;
  lift (mean loss).

(** [Layer1.forward(input, *args)] *)
Definition Layer1_forward (m : RNNModel) (input : Tensor)
  (args : list Tensor) : M rng Tensor :=
  enc <- encoder m input ;;
  emb <- drop m enc ;;
  ret emb.

(** [Layer3.forward(inp, *args)] *)
Definition Layer3_forward (m : RNNModel) (inp : Tensor)
  (args : list Tensor) : M rng Tensor :=
  rnn_output <- rnn m inp ;;
  ret rnn_output.

(** [Layer2.forward(input, target, length)] *)
Definition Layer2_forward (m : RNNModel) (input target lengths : Tensor)
  : M rng Tensor :=
  max_len <- lift (size input 1) ;;
  mask <- lift (get_mask lengths max_len) ;;
  let rnn_output := input in
  loss <- criterion m target rnn_output ;;
  loss <- lift (masked_select loss mask) ;;
  lift (mean loss).

(** [self.layers]: the four stages, in the order [__init__] appends them.
    The third is the [nn.Linear] itself, whose [forward] takes the input
    only; [Layer2.forward] takes exactly the target and the lengths. *)
Definition layers (m : RNNModel) : list layer :=
  [ Layer1_forward m;
    Layer3_forward m;
    (fun x args => match args with [] => proj m x | _ => raise TypeError end);
    (fun x args =>
       match args with
       | [target; lengths] => Layer2_forward m x target lengths
       | _ => raise TypeError
       end) ].

(** Modelled from the spec: [pipeline_model.Pipeline] is not among the
    sources.  With one worker the executor applies its stages in order to
    the input, and hands the extra outputs (target, length) to the last
    stage, the loss stage. *)
Fixpoint Pipeline_forward (stages : list layer) (x : Tensor)
  (extra : list Tensor) : M rng Tensor :=
  match stages with
  | [] => ret x
  | [last] => last x extra
  | stage :: rest => y <- stage x [] ;; Pipeline_forward rest y extra
  end.

(** *** Facts about masking *)

Lemma select_app {A} (xs ys : list A) (bs cs : list bool) :
  length xs = length bs ->
  select (xs ++ ys) (bs ++ cs) = select xs bs ++ select ys cs.
Proof.
  revert bs; induction xs as [|x xs IH]; intros [|b bs] Hlen;
    simpl in *; try discriminate; auto.
  destruct b; simpl; rewrite IH by lia; reflexivity.
Qed.

Lemma select_mask_row_from {A} (row : list A) (l : Z) (k : nat) :
  select row (map (fun t => (Z.of_nat t <? l)%Z) (seq k (length row)))
  = take (Z.to_nat l - k) row.
Proof.
  revert k; induction row as [|x row IH]; intros k; simpl.
  - destruct (Z.to_nat l - k)%nat; reflexivity.
  - rewrite IH. destruct (Z.ltb_spec (Z.of_nat k) l) as [Hlt|Hge].
    + replace (Z.to_nat l - k)%nat with (S (Z.to_nat l - S k)) by lia.
      reflexivity.
    + replace (Z.to_nat l - k)%nat with 0%nat by lia.
      replace (Z.to_nat l - S k)%nat with 0%nat by lia.
      reflexivity.
Qed.

Lemma select_mask_row {A} (row : list A) (l : Z) :
  select row (map (fun t => (Z.of_nat t <? l)%Z) (seq 0 (length row)))
  = take (Z.to_nat l) row.
Proof. rewrite select_mask_row_from. f_equal. lia. Qed.

Lemma select_mask_rows {A} (T : nat) (rows : list (list A)) (ls : list Z) :
  Forall (fun r => length r = T) rows ->
  select (concat rows)
    (flat_map (fun l => map (fun t => (Z.of_nat t <? l)%Z) (seq 0 T)) ls)
  = concat (zip_with (fun l r => take (Z.to_nat l) r) ls rows).
Proof.
  intros Hrows; revert ls.
  induction Hrows as [|row rows Hrow _ IH]; intros [|l ls]; simpl; auto.
  - destruct (row ++ concat rows); reflexivity.
  - rewrite select_app by (rewrite length_map, length_seq; exact Hrow).
    rewrite IH, <- Hrow, select_mask_row. reflexivity.
Qed.



Lemma masked_mean (T : nat) (rows : list (list spec_float)) (ls : list Z) :
  Forall (fun r => length r = T) rows ->
  length ls = length rows ->
  exists mask sel,
    get_mask (mkTensor [length ls] (Longs ls)) T = Ok mask /\
    masked_select (of_rows T rows) mask = Ok sel /\
    mean sel = Ok (scalar (arithmetic_mean (valid_entries ls rows))).
Proof.
  intros Hrows Hlen. eexists _, _. split; [reflexivity|].
  unfold masked_select, of_rows; simpl.
  rewrite Hlen, decide_True by reflexivity.
  rewrite (select_mask_rows T rows ls Hrows). split; reflexivity.
Qed.


(** *** The loss stage and the stage list *)

Lemma Pipeline_forward_layers (m : RNNModel) (raw target lengths : Tensor) :
  Pipeline_forward (layers m) raw [target; lengths]
  = (emb <- Layer1_forward m raw [] ;;
     out <- Layer3_forward m emb [] ;;
     act <- proj m out ;;
     Layer2_forward m act target lengths).
Proof. reflexivity. Qed.

(** C10: [Layer2.forward] takes the mask's [max_len] from dimension 1 of
    the activation it receives.  Run through the stage list, the loss
    stage is applied to the activation that the projection returns, the
    target and the lengths, and to nothing else; whenever it returns a
    loss, that loss is the mean of the criterion's output selected by the
    mask [get_mask lengths T] with [T = act.size(1)]; an activation without
    a dimension 1 makes it raise before the criterion runs. *)
Theorem Layer2_mask_from_activation
  (m : RNNModel) (raw act target lengths : Tensor) (g : rng) :
  Pipeline_forward (layers m) raw [target; lengths] g
  = (emb <- Layer1_forward m raw [] ;;
     out <- Layer3_forward m emb [] ;;
     act <- proj m out ;;
     Layer2_forward m act target lengths) g /\
  (forall loss g',
      Layer2_forward m act target lengths g = (Ok loss, g') ->
      exists T per_position mask sel,
        size act 1 = Ok T /\
        get_mask lengths T = Ok mask /\
        shape mask !! 1%nat = Some T /\
        criterion m target act g = (Ok per_position, g') /\
        masked_select per_position mask = Ok sel /\
        mean sel = Ok loss) /\
  (size act 1 = Raise IndexError ->
   Layer2_forward m act target lengths g = (Raise IndexError, g)).
Proof.
  split; [rewrite Pipeline_forward_layers; reflexivity|]. split.
  - intros loss g'. unfold Layer2_forward, bind, lift.
    destruct (size act 1) as [T|] eqn:HT; [|discriminate].
    destruct (get_mask lengths T) as [mask|] eqn:Hmask; [|discriminate].
    destruct (criterion m target act g) as [[per_position|] g1] eqn:Hc;
      [|discriminate].
    destruct (masked_select per_position mask) as [sel|] eqn:Hsel;
      [|discriminate].
    intros H. injection H as Hmean <-.
    exists T, per_position, mask, sel. repeat split; auto.
    unfold get_mask in Hmask. destruct (elems lengths); try discriminate.
    injection Hmask as <-. reflexivity.
  - intros HT. unfold Layer2_forward, bind, lift. rewrite HT. reflexivity.
Qed.

(** X1: in evaluation mode dropout is the identity, and the stage list
    then computes what [RNNModel.forward] computes, provided the stage
    bodies keep dimension 1 (the time steps), as batch-first modules do. *)
Lemma pipeline_equals_forward_in_eval_mode
  (m : RNNModel) (input target lengths : Tensor) (ls : list Z) (T : nat)
  (g : rng) :
  training m = false ->
  size input 1 = Ok T ->
  elems lengths = Longs ls ->
  (forall x y s s', encoder m x s = (Ok y, s') -> size y 1 = size x 1) ->
  (forall x y s s', rnn m x s = (Ok y, s') -> size y 1 = size x 1) ->
  (forall x y s s', proj m x s = (Ok y, s') -> size y 1 = size x 1) ->
  Pipeline_forward (layers m) input [target; lengths] g
  = RNNModel_forward m input target lengths g.
Proof.
  intros Htrain Hsize Hls Henc Hrnn Hproj.
  rewrite Pipeline_forward_layers.
  unfold RNNModel_forward, RNNModel_rnn, Layer1_forward, Layer3_forward,
    Layer2_forward, bind, lift, drop, ret, F_dropout.
  rewrite Hsize, Htrain. unfold get_mask. rewrite Hls.
  destruct (encoder m input g) as [[enc|e] g1] eqn:He; [|reflexivity].
  destruct (SFltb (dropout m) F32.zero || SFltb F32.one (dropout m));
    [reflexivity|].
  unfold ret.
  destruct (rnn m enc g1) as [[out|e] g2] eqn:Hr; [|reflexivity].
  destruct (proj m out g2) as [[act|e] g3] eqn:Hp; [|reflexivity].
  rewrite (Hproj _ _ _ _ Hp), (Hrnn _ _ _ _ Hr), (Henc _ _ _ _ He), Hsize.
  reflexivity.
Qed.

(** *** Edge cases of the masked loss *)

Lemma valid_entries_all_padding (ls : list Z) (rows : list (list spec_float)) :
  Forall (fun l => (l <= 0)%Z) ls -> valid_entries ls rows = [].
Proof.
  unfold valid_entries. intros Hls; revert rows.
  induction Hls as [|l ls Hl _ IH]; intros [|r rows]; simpl; auto.
  replace (Z.to_nat l) with 0%nat by lia. simpl. apply IH.
Qed.


(** What [Layer2.forward] returns once the criterion has returned the
    per-position loss [rows]. *)
Lemma Layer2_forward_rows (m : RNNModel) (act target : Tensor) (ls : list Z)
  (T : nat) (rows : list (list spec_float)) (g g' : rng) :
  size act 1 = Ok T ->
  length ls = length rows ->
  Forall (fun r => length r = T) rows ->
  criterion m target act g = (Ok (of_rows T rows), g') ->
  Layer2_forward m act target (mkTensor [length ls] (Longs ls)) g
  = (Ok (scalar (arithmetic_mean (valid_entries ls rows))), g').
Proof.
  intros Hsize Hlen Hrows Hcrit.
  destruct (masked_mean T rows ls Hrows Hlen) as (mask & sel & Hm & Hs & Hmean).
  unfold Layer2_forward, bind, lift. rewrite Hsize, Hm, Hcrit, Hs.
  exact (f_equal (fun r => (r, g')) Hmean).
Qed.

(** X3: a batch in which no example has a valid position (every length
    is zero or negative) has an empty selection, and [Layer2.forward]
    returns NaN, the mean of no entries. *)
Theorem all_padding_loss_is_nan (m : RNNModel) (act target : Tensor)
  (ls : list Z) (T : nat) (rows : list (list spec_float)) (g g' : rng) :
  size act 1 = Ok T ->
  length ls = length rows ->
  Forall (fun r => length r = T) rows ->
  criterion m target act g = (Ok (of_rows T rows), g') ->
  Forall (fun l => (l <= 0)%Z) ls ->
  Layer2_forward m act target (mkTensor [length ls] (Longs ls)) g
  = (Ok (scalar S754_nan), g').
Proof.
  intros Hsize Hlen Hrows Hcrit Hls.
  rewrite (Layer2_forward_rows m act target ls T rows g g') by assumption.
  rewrite valid_entries_all_padding by assumption. reflexivity.
Qed.


(** X5: the loss does not depend on what the criterion returns at padding
    positions: two activations whose per-position losses agree on every
    row up to the row's length give the same loss. *)
Theorem loss_ignores_padding_entries (m : RNNModel)
  (act1 act2 target : Tensor) (ls : list Z) (T : nat)
  (rows1 rows2 : list (list spec_float)) (g g' : rng) :
  size act1 1 = Ok T -> size act2 1 = Ok T ->
  length ls = length rows1 -> length ls = length rows2 ->
  Forall (fun r => length r = T) rows1 ->
  Forall (fun r => length r = T) rows2 ->
  criterion m target act1 g = (Ok (of_rows T rows1), g') ->
  criterion m target act2 g = (Ok (of_rows T rows2), g') ->
  zip_with (fun l r => take (Z.to_nat l) r) ls rows1
  = zip_with (fun l r => take (Z.to_nat l) r) ls rows2 ->
  Layer2_forward m act1 target (mkTensor [length ls] (Longs ls)) g
  = Layer2_forward m act2 target (mkTensor [length ls] (Longs ls)) g.
Proof.
  intros H1 H2 Hl1 Hl2 Hr1 Hr2 Hc1 Hc2 Hsame.
  rewrite (Layer2_forward_rows m act1 target ls T rows1 g g') by assumption.
  rewrite (Layer2_forward_rows m act2 target ls T rows2 g g') by assumption.
  unfold valid_entries. rewrite Hsame. reflexivity.
Qed.

(** *** The stage list against the full model *)

Lemma F_dropout_keeps_shape (x y : Tensor) (p : spec_float) (tr : bool)
  (g g' : rng) :
  F_dropout x p tr g = (Ok y, g') -> shape y = shape x.
Proof.
  unfold F_dropout.
  destruct (SFltb p F32.zero || SFltb F32.one p); [discriminate|].
  destruct tr.
  - destruct (elems x); try discriminate.
    destruct (dropout_elems p xs g). intros H; injection H as <- <-.
    reflexivity.
  - intros H; injection H as <- <-. reflexivity.
Qed.

(** X6: in every mode, [RNNModel.forward] computes what the stage list
    computes with one more step: the dropout that [_rnn] applies to the
    projection's output, between the third stage and the loss stage
    (the stage bodies keeping the time dimension). *)
Theorem forward_is_stage_list_plus_output_dropout
  (m : RNNModel) (input target lengths : Tensor) (ls : list Z) (T : nat)
  (g : rng) :
  size input 1 = Ok T ->
  elems lengths = Longs ls ->
  (forall x y s s', encoder m x s = (Ok y, s') -> size y 1 = size x 1) ->
  (forall x y s s', rnn m x s = (Ok y, s') -> size y 1 = size x 1) ->
  (forall x y s s', proj m x s = (Ok y, s') -> size y 1 = size x 1) ->
  RNNModel_forward m input target lengths g
  = (emb <- Layer1_forward m input [] ;;
     out <- Layer3_forward m emb [] ;;
     act <- proj m out ;;
     act <- drop m act ;;
     Layer2_forward m act target lengths) g.
Proof.
  intros Hsize Hls Henc Hrnn Hproj.
  unfold RNNModel_forward, RNNModel_rnn, Layer1_forward, Layer3_forward,
    Layer2_forward, bind, lift, ret.
  rewrite Hsize. unfold get_mask. rewrite Hls.
  destruct (encoder m input g) as [[enc|e] g1] eqn:He; [|reflexivity].
  destruct (drop m enc g1) as [[emb|e] g2] eqn:Hd1; [|reflexivity].
  destruct (rnn m emb g2) as [[out|e] g3] eqn:Hr; [|reflexivity].
  destruct (proj m out g3) as [[act|e] g4] eqn:Hp; [|reflexivity].
  destruct (drop m act g4) as [[act'|e] g5] eqn:Hd2; [|reflexivity].
  assert (Hsz : size act' 1 = Ok T).
  { unfold size. rewrite (F_dropout_keeps_shape _ _ _ _ _ _ Hd2).
    fold (size act 1). rewrite (Hproj _ _ _ _ Hp), (Hrnn _ _ _ _ Hr).
    unfold size. rewrite (F_dropout_keeps_shape _ _ _ _ _ _ Hd1).
    fold (size enc 1). rewrite (Henc _ _ _ _ He). exact Hsize. }
  rewrite Hsz. reflexivity.
Qed.


End Stages.

End Model.

(** ** A small concrete instance of the stage bodies

    One hidden unit: the embedding looks token ids up in a one-column
    table, the recurrent layer passes its input on, the projection scales
    by its single weight, and the criterion's per-position loss is the
    activation itself.  It serves to run the model on concrete batches. *)

Module Toy.
Import Model.

Definition embedding (w : state_dict) (x : Tensor) : M rng Tensor :=
  match w !! 0%nat, x with
  | Some (mkTensor [_; 1%nat] (Floats table)), mkTensor [b; t] (Longs ids) =>
      match mapM (fun i : Z => table !! Z.to_nat i) ids with
      | Some vs => ret (mkTensor [b; t; 1%nat] (Floats vs))
      | None => raise IndexError
      end
  | _, _ => raise RuntimeError
  end.

Definition lstm (w : state_dict) (training : bool) (p : spec_float)
  (x : Tensor) : M rng Tensor := ret x.

Definition linear (w : state_dict) (x : Tensor) : M rng Tensor :=
  match w !! 1%nat, elems x with
  | Some (mkTensor [1%nat; 1%nat] (Floats [a])), Floats xs =>
      ret (mkTensor (shape x) (Floats (map (F32.mul a) xs)))
  | _, _ => raise RuntimeError
  end.

Definition index_linear (w : state_dict) (loss_type : string)
  (training : bool) (target x : Tensor) : M rng Tensor :=
  match x with
  | mkTensor [b; t; 1%nat] (Floats xs) => ret (mkTensor [b; t] (Floats xs))
  | _ => raise RuntimeError
  end.

Definition weights : state_dict :=
  [ mkTensor [4; 1]%nat (Floats (map F32.of_Z [0; 1; 2; 3]%Z));
    mkTensor [1; 1]%nat (Floats [F32.one]) ].

Definition half : spec_float := F32.exp2 1 (-1).

Definition eval_model : RNNModel := mkRNNModel false half weights "full".

Definition train_model : RNNModel := mkRNNModel true half weights "nce".

(** A generator whose every uniform sample is 0: dropout keeps every
    entry. *)
Definition keep_all : rng := mkRng (fun _ => F32.zero) 0.

Definition ids : Tensor := mkTensor [1; 2]%nat (Longs [1; 2]%Z).

Definition lengths : Tensor := mkTensor [1]%nat (Longs [2]%Z).

Definition rows35 : list (list spec_float) :=
  map (map F32.of_Z)
    [ [1; 2; 3; 4; 5]; [6; 7; 8; 9; 10]; [11; 12; 13; 14; 15] ]%Z.

Definition act35 : Tensor := mkTensor [3; 5; 1]%nat (Floats (concat rows35)).

Definition RNNModel_forward :=
  Model.RNNModel_forward embedding lstm linear index_linear.

Definition Layer2_forward := Model.Layer2_forward index_linear.

Definition layers := Model.layers embedding lstm linear index_linear.


Lemma embedding_keeps_time (x y : Tensor) (s s' : rng) :
  encoder embedding eval_model x s = (Ok y, s') -> size y 1 = size x 1.
Proof.
  unfold encoder, embedding; cbn.
  destruct x as [[|b [|t [|? ?]]] [xs|ids|bs]]; try discriminate.
  destruct (mapM _ ids); try discriminate.
  intros H; injection H as <- <-. reflexivity.
Qed.

Lemma lstm_keeps_time (x y : Tensor) (s s' : rng) :
  rnn lstm eval_model x s = (Ok y, s') -> size y 1 = size x 1.
Proof. intros H; injection H as <- <-. reflexivity. Qed.

Lemma linear_keeps_time (x y : Tensor) (s s' : rng) :
  proj linear eval_model x s = (Ok y, s') -> size y 1 = size x 1.
Proof.
  unfold proj, linear; cbn. destruct (elems x); try discriminate.
  intros H; injection H as <- <-. reflexivity.
Qed.

Lemma pipeline_equals_forward_witness :
  Pipeline_forward (layers eval_model) ids [ids; lengths] keep_all
  = RNNModel_forward eval_model ids ids lengths keep_all.
Proof.
  exact (pipeline_equals_forward_in_eval_mode embedding lstm linear
           index_linear eval_model ids ids lengths [2%Z] 2 keep_all
           eq_refl eq_refl eq_refl embedding_keeps_time lstm_keeps_time
           linear_keeps_time).
Defined.

(** C1 (the code departs from the claim here): a training-mode batch on
    which dropout keeps every entry.  The stage list applies dropout once,
    after the embedding; [RNNModel.forward] applies it a second time, after
    the projection.  With rate 1/2 the kept entries are doubled each time:
    the pipeline's loss is 3, the full model's is 6, and the full model
    draws twice as many samples from the generator. *)
Theorem pipeline_loss_differs_from_forward_in_training_mode :
  let piped :=
    Pipeline_forward (layers train_model) ids [ids; lengths] keep_all in
  let whole := RNNModel_forward train_model ids ids lengths keep_all in
  fst piped = Ok (scalar (F32.of_Z 3)) /\ drawn (snd piped) = 2%nat /\
  fst whole = Ok (scalar (F32.of_Z 6)) /\ drawn (snd whole) = 4%nat.
Proof. vm_compute. repeat split; reflexivity. Qed.

Lemma rows35_rectangular : Forall (fun r => length r = 5%nat) rows35.
Proof. repeat constructor. Qed.

Lemma all_padding_loss_witness :
  Layer2_forward eval_model act35 ids
    (mkTensor [3]%nat (Longs [0; -1; 0]%Z)) keep_all
  = (Ok (scalar S754_nan), keep_all).
Proof.
  apply (all_padding_loss_is_nan index_linear eval_model act35 ids
           [0; -1; 0]%Z 5 rows35 keep_all keep_all eq_refl eq_refl
           rows35_rectangular eq_refl).
  repeat constructor; lia.
Defined.


(** The rows of [rows35] with other values at the padding positions of
    the lengths 3, 0, 5. *)
Definition rows35' : list (list spec_float) :=
  map (map F32.of_Z)
    [ [1; 2; 3; 40; 50]; [60; 70; 80; 90; 100]; [11; 12; 13; 14; 15] ]%Z.

Definition act35' : Tensor :=
  mkTensor [3; 5; 1]%nat (Floats (concat rows35')).

Lemma loss_ignores_padding_witness :
  Layer2_forward eval_model act35 ids
    (mkTensor [3]%nat (Longs [3; 0; 5]%Z)) keep_all
  = Layer2_forward eval_model act35' ids
      (mkTensor [3]%nat (Longs [3; 0; 5]%Z)) keep_all.
Proof.
  apply (loss_ignores_padding_entries index_linear eval_model act35 act35'
           ids [3; 0; 5]%Z 5 rows35 rows35' keep_all keep_all
           eq_refl eq_refl eq_refl eq_refl).
  - repeat constructor.
  - repeat constructor.
  - reflexivity.
  - reflexivity.
  - reflexivity.
Defined.

Lemma forward_is_stage_list_plus_dropout_witness :
  RNNModel_forward train_model ids ids lengths keep_all
  = (emb <- Layer1_forward embedding train_model ids [] ;;
     out <- Layer3_forward lstm train_model emb [] ;;
     act <- proj linear train_model out ;;
     act <- drop train_model act ;;
     Layer2_forward train_model act ids lengths) keep_all.
Proof.
  exact (forward_is_stage_list_plus_output_dropout embedding lstm linear
           index_linear train_model ids ids lengths [2%Z] 2 keep_all
           eq_refl eq_refl embedding_keeps_time lstm_keeps_time
           linear_keeps_time).
Defined.

End Toy.

(** ** [main.py] *)

Module Main.
Import Model.

(** The command-line options that the modelled functions read. *)
Record Args := mkArgs {
  cuda : bool;
  index_module : string;
  loss : string;
  dropout_rate : spec_float;
  clip : spec_float;
  log_interval : Z;
  prof : bool;
  epochs : Z;
  lr0 : spec_float;
  weight_decay : spec_float;
  do_train : bool;
  save : string
}.

(** [model_path = './saved_model/{}'.format(args.save)] *)
Definition model_path (args : Args) : string :=
  String.append "./saved_model/" (save args).

(** What [build_model] builds: an [RNNModel] for the index module
    ['linear'], a [GenModel] for ['gru'].  Both carry a mode flag,
    parameters and a criterion with a [loss_type]. *)
Inductive arch := Linear | Gru.

Record network := mkNetwork { net_arch : arch; net : RNNModel }.

(** The actions of one worker process that an observer can see, in the
    order they happen. *)
Inductive event :=
| EvTrain (epoch : Z)
| EvForward (num_batch : Z)
| EvClipGrad
| EvOptimizerStep
| EvZeroGrad
| EvLogTrain (epoch num_batch : Z) (cur_loss ppl : spec_float)
| EvBarrier
| EvCheckpoint (path : string)
| EvEvaluate
| EvLogValid (epoch : Z) (val_ppl : spec_float)
| EvBroadcast (src : Z) (held : Tensor).

(** The state of one worker process.  [model] is the global pipeline
    model: its rank and world size, and the network whose stages it wraps.
    [disk] is this process's view of the checkpoint directory, a file per
    path and rank.  [inbox] holds what the broadcasts of other ranks will
    deliver. *)
Record world := mkWorld {
  rank : Z;
  world_size : Z;
  model : network;
  grads : state_dict;
  generator : rng;
  disk : gmap (string * Z) state_dict;
  inbox : list Tensor;
  trace : list event
}.

Definition with_model (f : network -> network) (w : world) : world :=
  mkWorld (rank w) (world_size w) (f (model w)) (grads w) (generator w)
    (disk w) (inbox w) (trace w).

Definition with_grads (f : state_dict -> state_dict) (w : world) : world :=
  mkWorld (rank w) (world_size w) (model w) (f (grads w)) (generator w)
    (disk w) (inbox w) (trace w).

Definition with_generator (f : rng -> rng) (w : world) : world :=
  mkWorld (rank w) (world_size w) (model w) (grads w) (f (generator w))
    (disk w) (inbox w) (trace w).

Definition with_disk
  (f : gmap (string * Z) state_dict -> gmap (string * Z) state_dict)
  (w : world) : world :=
  mkWorld (rank w) (world_size w) (model w) (grads w) (generator w)
    (f (disk w)) (inbox w) (trace w).

Definition with_inbox (f : list Tensor -> list Tensor) (w : world) : world :=
  mkWorld (rank w) (world_size w) (model w) (grads w) (generator w)
    (disk w) (f (inbox w)) (trace w).

Definition with_trace (f : list event -> list event) (w : world) : world :=
  mkWorld (rank w) (world_size w) (model w) (grads w) (generator w)
    (disk w) (inbox w) (f (trace w)).

Definition emit (e : event) : M world unit :=
  modify (with_trace (fun t => t ++ [e])).

(** Code that only draws from the generator, run in a process. *)
Definition with_rng {A} (c : M rng A) : M world A :=
  fun w =>
    let (r, g) := c (generator w) in
    (r, with_generator (fun _ => g) w).

Definition set_training (b : bool) (n : network) : network :=
  mkNetwork (net_arch n)
    (mkRNNModel b (dropout (net n)) (weights (net n)) (loss_type (net n))).

Definition set_loss_type (s : string) (n : network) : network :=
  mkNetwork (net_arch n)
    (mkRNNModel (training (net n)) (dropout (net n)) (weights (net n)) s).

Definition set_weights (p : state_dict) (n : network) : network :=
  mkNetwork (net_arch n)
    (mkRNNModel (training (net n)) (dropout (net n)) p (loss_type (net n))).

(** A [for] loop whose body may [break]: it returns whether it did, and
    the loop's variables. *)
Fixpoint for_loop {S A B} (xs : list A) (acc : B)
  (body : B -> A -> M S (bool * B)) : M S B :=
  match xs with
  | [] => ret acc
  | x :: xs' =>
      r <- body acc x ;;
      if fst r then ret (snd r) else for_loop xs' (snd r) body
  end.

(** [enumerate(xs)] *)
Definition enumerate {A} (xs : list A) : list (Z * A) :=
  zip (map Z.of_nat (seq 0 (length xs))) xs.

(** [val_ppl[0] = v]: a Python float stored into a float tensor. *)
Definition setitem0 (x : Tensor) (v : spec_float) : result Tensor :=
  match elems x with
  | Floats (_ :: rest) => Ok (mkTensor (shape x) (Floats (F32.round v :: rest)))
  | Floats [] => Raise IndexError
  | _ => Raise TypeError
  end.

(** [x < y] on float tensors of one shape, as [run_epoch] compares two
    scores: the tensor of the comparisons. *)
Definition tensor_lt (x y : Tensor) : result Tensor :=
  match elems x, elems y with
  | Floats xs, Floats ys =>
      if decide (shape x = shape y)
      then Ok (mkTensor (shape x) (Bools (zip_with SFltb xs ys)))
      else Raise RuntimeError
  | _, _ => Raise TypeError
  end.

(** [int(length.data.sum())], for the integer tensor that the lengths
    are. *)
Definition int_sum (lengths : Tensor) : result Z :=
  match elems lengths with
  | Longs ls => Ok (fold_left Z.add ls 0%Z)
  | _ => Raise TypeError
  end.

(** The test [not best_val_ppl or val_ppl < best_val_ppl] of [run_epoch]:
    [not None] holds; otherwise [not] asks the recorded tensor for its
    truth value, and only a recorded tensor that is true lets the
    comparison decide. *)
Definition is_new_best (best_val_ppl : option Tensor) (val_ppl : Tensor)
  : result bool :=
  match best_val_ppl with
  | None => Ok true
  | Some best =>
      match truth best with
      | Raise e => Raise e
      | Ok false => Ok true
      | Ok true =>
          match tensor_lt val_ppl best with
          | Raise e => Raise e
          | Ok c => truth c
          end
      end
  end.

(** A validation score as [run_epoch] holds it: a float tensor of one
    element. *)
Definition score (v : spec_float) : Tensor :=
  mkTensor [1%nat] (Floats [v]).

(** The last lines of [run_epoch] over the epochs of a run, given the
    score each epoch's broadcast leaves in [val_ppl]: whether the epoch
    writes the [.best] files, the recorded best being updated as
    [run_epoch] returns it. *)
Fixpoint promotions (best_val_ppl : option Tensor) (scores : list spec_float)
  : result (list bool) :=
  match scores with
  | [] => Ok []
  | v :: rest =>
      match is_new_best best_val_ppl (score v) with
      | Raise e => Raise e
      | Ok promote =>
          let best' := if promote then Some (score v) else best_val_ppl in
          match promotions best' rest with
          | Raise e => Raise e
          | Ok ps => Ok (promote :: ps)
          end
      end
  end.

(** The promotion rule in the specification's words: the first score is
    recorded unconditionally, a later one when it is strictly lower than
    the best recorded so far. *)
Fixpoint strict_improvements (best : option spec_float)
  (scores : list spec_float) : list bool :=
  match scores with
  | [] => []
  | v :: rest =>
      let promote :=
        match best with None => true | Some b => SFltb v b end in
      promote :: strict_improvements (if promote then Some v else best) rest
  end.

(** The length-weighted mean per-token loss, in the specification's
    words: the per-batch mean losses, each weighted by the number of
    tokens of its batch, over the total number of tokens. *)
Definition length_weighted_mean (ps : list (spec_float * Z)) : spec_float :=
  F64.div
    (fold_left F64.add
       (map (fun p => F64.mul (fst p) (F64.of_Z (snd p))) ps) F64.zero)
    (F64.of_Z (fold_right Z.add 0%Z (map snd ps))).

(** The events of a training step. *)
Definition batch_event (e : event) : bool :=
  match e with
  | EvForward _ | EvClipGrad | EvOptimizerStep | EvZeroGrad
  | EvLogTrain _ _ _ _ => true
  | _ => false
  end.



(** The tensor that the last broadcast among some events left with the
    process. *)
Fixpoint last_broadcast (evs : list event) : option Tensor :=
  match evs with
  | [] => None
  | e :: rest =>
      match last_broadcast rest with
      | Some x => Some x
      | None => match e with EvBroadcast _ x => Some x | _ => None end
      end
  end.

(** The events that a process added to its trace between two states. *)
Definition new_events (w w' : world) : list event :=
  skipn (length (trace w)) (trace w').

(** What a training loop may do to a process: it keeps the rank, the world
    size, the checkpoint files and the inbox, and adds events of training
    steps to the trace. *)
Definition trains : relation world := fun w w' =>
  rank w' = rank w /\ world_size w' = world_size w /\
  disk w' = disk w /\ inbox w' = inbox w /\
  exists evs, trace w' = trace w ++ evs /\ forallb batch_event evs = true.

(** What the body of [evaluate] may do to a process: draw from the
    generator, and nothing else. *)
Definition draws_only : relation world := fun w w' =>
  rank w' = rank w /\ world_size w' = world_size w /\
  model w' = model w /\ grads w' = grads w /\
  disk w' = disk w /\ inbox w' = inbox w /\ trace w' = trace w.

(** *** Reasoning about monadic code: relations every step maintains *)

Section Keeps.
Context {S : Type} (R : relation S) `{!PreOrder R}.

(** [c] relates every state it starts from to the state it reaches,
    whether it returns or raises. *)
Definition keeps {A} (c : M S A) : Prop := forall s, R s (snd (c s)).

Lemma keeps_ret {A} (a : A) : keeps (ret a).
Proof. intros s. reflexivity. Qed.

Lemma keeps_raise {A} (e : exn) : keeps (raise (A := A) e).
Proof. intros s. reflexivity. Qed.

Lemma keeps_lift {A} (r : result A) : keeps (lift r).
Proof. intros s. reflexivity. Qed.

Lemma keeps_gets {A} (f : S -> A) : keeps (gets f).
Proof. intros s. reflexivity. Qed.

Lemma keeps_modify (f : S -> S) : (forall s, R s (f s)) -> keeps (modify f).
Proof. intros H s. apply H. Qed.

Lemma keeps_bind {A B} (c : M S A) (k : A -> M S B) :
  keeps c -> (forall a, keeps (k a)) -> keeps (bind c k).
Proof.
  intros Hc Hk s. unfold bind. specialize (Hc s).
  destruct (c s) as [[a|e] s1]; simpl in *; [|exact Hc].
  etransitivity; [exact Hc|apply Hk].
Qed.

Lemma keeps_for_each {A B} (xs : list A) (acc : B) (body : B -> A -> M S B) :
  (forall b x, keeps (body b x)) -> keeps (for_each xs acc body).
Proof.
  intros Hbody; revert acc; induction xs as [|x xs IH]; intros acc; simpl.
  - apply keeps_ret.
  - apply keeps_bind; [apply Hbody|intros acc'; apply IH].
Qed.

Lemma keeps_for_loop {A B} (xs : list A) (acc : B)
  (body : B -> A -> M S (bool * B)) :
  (forall b x, keeps (body b x)) -> keeps (for_loop xs acc body).
Proof.
  intros Hbody; revert acc; induction xs as [|x xs IH]; intros acc; simpl.
  - apply keeps_ret.
  - apply keeps_bind; [apply Hbody|].
    intros [[] acc']; simpl; [apply keeps_ret|apply IH].
Qed.

End Keeps.

Section Commutes.
Context {S : Type} (f : S -> S).

(** [c] does not look at what [f] changes: run after [f], it returns the
    same and reaches the state that [f] makes of the one it would have
    reached. *)
Definition commutes {A} (c : M S A) : Prop :=
  forall s, c (f s) = (fst (c s), f (snd (c s))).

Lemma commutes_ret {A} (a : A) : commutes (ret a).
Proof. intros s. reflexivity. Qed.

Lemma commutes_raise {A} (e : exn) : commutes (raise (A := A) e).
Proof. intros s. reflexivity. Qed.

Lemma commutes_lift {A} (r : result A) : commutes (lift r).
Proof. intros s. reflexivity. Qed.

Lemma commutes_gets {A} (proj : S -> A) :
  (forall s, proj (f s) = proj s) -> commutes (gets proj).
Proof. intros H s. unfold gets. rewrite H. reflexivity. Qed.

Lemma commutes_modify (g : S -> S) :
  (forall s, g (f s) = f (g s)) -> commutes (modify g).
Proof. intros H s. unfold modify. rewrite H. reflexivity. Qed.

Lemma commutes_bind {A B} (c : M S A) (k : A -> M S B) :
  commutes c -> (forall a, commutes (k a)) -> commutes (bind c k).
Proof.
  intros Hc Hk s. unfold bind. rewrite Hc.
  destruct (c s) as [[a|e] s1]; simpl; [apply Hk|reflexivity].
Qed.

Lemma commutes_for_each {A B} (xs : list A) (acc : B)
  (body : B -> A -> M S B) :
  (forall b x, commutes (body b x)) -> commutes (for_each xs acc body).
Proof.
  intros Hbody; revert acc; induction xs as [|x xs IH]; intros acc; simpl.
  - apply commutes_ret.
  - apply commutes_bind; [apply Hbody|intros acc'; apply IH].
Qed.

End Commutes.



Lemma batch_events_no_broadcast (evs : list event) :
  forallb batch_event evs = true -> last_broadcast evs = None.
Proof.
  induction evs as [|e evs IH]; simpl; [reflexivity|].
  intros H. apply andb_prop in H as [He Hevs]. rewrite (IH Hevs).
  destruct e; try discriminate; reflexivity.
Qed.


Section Program.

(** The stage bodies, as in [Model], and the forward pass of a
    [GenModel] (generic_model.py and nce, outside the two files). *)
Variable Embedding_forward : state_dict -> Tensor -> M rng Tensor.
Variable LSTM_forward :
  state_dict -> bool -> spec_float -> Tensor -> M rng Tensor.
Variable Linear_forward : state_dict -> Tensor -> M rng Tensor.
Variable IndexLinear_forward :
  state_dict -> string -> bool -> Tensor -> Tensor -> M rng Tensor.
Variable GenModel_forward :
  RNNModel -> Tensor -> Tensor -> Tensor -> M rng Tensor.

(** The random initialisation that the constructors of a network run. *)
Variable init_parameters : arch -> M rng state_dict.

(** One call [model(real_input, *real_extra_output)] of the pipeline at a
    rank: the forward and backward pass through the worker chain.  It
    returns the loss (at the terminal rank) and the gradients of this
    rank's parameters. *)
Variable Pipeline_call :
  Z -> Z -> network -> option Tensor -> list Tensor ->
  M rng (option Tensor * state_dict).

(** The parameters of the stages that a rank owns, out of all. *)
Variable partition : Z -> Z -> state_dict -> state_dict.

Variable clip_grad_norm : state_dict -> spec_float -> state_dict.
Variable Adam_step : state_dict -> state_dict -> state_dict.

(** [math.exp], which raises [OverflowError] out of range. *)
Variable math_exp : spec_float -> result spec_float.

(** [torch.manual_seed]: the generator a seed starts. *)
Variable manual_seed : Z -> rng.

(** The corpus: its batches, and [utils.process_data], which moves a
    batch to the device and splits it into data, target and length. *)
Variable Batch : Type.
Variable process_data : Batch -> bool -> bool -> Tensor * Tensor * Tensor.
Variable corpus_train corpus_valid corpus_test : list Batch.

Variable args : Args.

(** [sep_target = args.index_module == 'linear'] *)
Definition sep_target : bool := bool_decide (index_module args = "linear").

(** [whole_model(data, target, length)] *)
Definition network_forward (n : network) (data target lengths : Tensor)
  : M rng Tensor :=
  match net_arch n with
  | Linear =>
      RNNModel_forward Embedding_forward LSTM_forward Linear_forward
        IndexLinear_forward (net n) data target lengths
  | Gru => GenModel_forward (net n) data target lengths
  end.

(** [build_model(use_pipe=False)]: a new network with newly initialised
    parameters, in training mode as every new module is.  (With
    [use_pipe=True], which only the module's start-up passes, the network
    is wrapped into the pipeline that [world] holds.) *)
Definition build_model : M world network :=
  if bool_decide (index_module args = "linear") then
    p <- with_rng (init_parameters Linear) ;;
    ret (mkNetwork Linear
           (mkRNNModel true (dropout_rate args) p (loss args)))
  else if bool_decide (index_module args = "gru") then
    p <- with_rng (init_parameters Gru) ;;
    ret (mkNetwork Gru
           (mkRNNModel true (dropout_rate args) p (loss args)))
  else raise NotImplementedError.

(** Modelled from the spec: [Pipeline.save] is not among the sources.
    Each rank writes its own partition's parameters to the path suffixed
    by its rank, and nothing else. *)
Definition Pipeline_save (path : string) : M world unit :=
  modify (fun w =>
            with_disk
              <[ (path, rank w) :=
                   partition (world_size w) (rank w)
                     (weights (net (model w))) ]> w) ;;;
  emit (EvCheckpoint path).

(** The per-rank files [0 .. n-1] under [path], in rank order. *)
Fixpoint read_parts (d : gmap (string * Z) state_dict) (path : string)
  (n : nat) : option (list state_dict) :=
  match n with
  | O => Some []
  | S n' =>
      match read_parts d path n', d !! (path, Z.of_nat n') with
      | Some parts, Some part => Some (parts ++ [part])
      | _, _ => None
      end
  end.

(** Modelled from the spec: [Pipeline.load_to_original_model] is not
    among the sources.  It reads the file of every rank and assigns the
    parameters back in the original stage order; a missing file or a
    parameter of another shape is a [PartitionMismatchError]. *)
Definition Pipeline_load_to_original_model (whole_model : network)
  (path : string) : M world network :=
  d <- gets disk ;;
  n <- gets world_size ;;
  match read_parts d path (Z.to_nat n) with
  | None => raise PartitionMismatchError
  | Some parts =>
      let p := concat parts in
      if decide (map shape p = map shape (weights (net whole_model)))
      then ret (set_weights p whole_model)
      else raise PartitionMismatchError
  end.

(** The body of the loop of [train], for one batch.  It returns whether
    the loop breaks, and [total_loss]. *)
Definition train_batch (epoch : Z) (lr : spec_float)
  (total_loss : spec_float) (it : Z * Batch) : M world (bool * spec_float) :=
  let num_batch := fst it in
  let '(data, target, lengths) :=
    process_data (snd it) (cuda args) sep_target in
  r <- gets rank ;;
  n <- gets world_size ;;
  let real_input := if (r =? 0)%Z then Some data else None in
  let real_extra_output :=
    if (r =? n - 1)%Z then [target; lengths] else [] in
  emit (EvForward num_batch) ;;;
  m <- gets model ;;
  out <- with_rng (Pipeline_call r n m real_input real_extra_output) ;;
  let loss := fst out in
  modify (with_grads (fun _ => snd out)) ;;;
  modify (with_grads (fun g => clip_grad_norm g (clip args))) ;;;
  emit EvClipGrad ;;;
  modify (fun w => with_model
            (set_weights (Adam_step (weights (net (model w))) (grads w))) w) ;;;
  emit EvOptimizerStep ;;;
  modify (with_grads (fun _ => [])) ;;;
  emit EvZeroGrad ;;;
  if (r =? n - 1)%Z then
    l <- lift (match loss with
               | Some t => item t
               | None => Raise AttributeError
               end) ;;
    let total_loss := F64.add total_loss l in
    if prof args then ret (true, total_loss)
    else if (log_interval args =? 0)%Z then raise ZeroDivisionError
    else if ((num_batch mod log_interval args =? 0) && (0 <? num_batch))%Z
    then
      let cur_loss := F64.div total_loss (F64.of_Z (log_interval args)) in
      ppl <- lift (math_exp cur_loss) ;;
      emit (EvLogTrain epoch num_batch cur_loss ppl) ;;;
      ret (false, F64.zero)
    else ret (false, total_loss)
  else ret (false, total_loss).

(** [train(model, data_source, epoch, lr, ...)].  [set_num_batch] and
    [reset] are bookkeeping of the pipeline object and touch nothing that
    a process state holds here; the progress bar is not modelled. *)
Definition train (data_source : list Batch) (epoch : Z) (lr : spec_float)
  : M world unit :=
  emit (EvTrain epoch) ;;;
  modify (with_model (set_training true)) ;;;
  let total_loss := F64.zero in
  modify (with_generator (fun _ => manual_seed epoch)) ;;;
  _ <- for_loop (enumerate data_source) total_loss (train_batch epoch lr) ;;
  ret tt.

(** The body of the loop of [evaluate], for one batch; the loop's
    variables are [eval_loss] and [total_length]. *)
Definition evaluate_batch (whole_model : network) (acc : spec_float * Z)
  (data_batch : Batch) : M world (spec_float * Z) :=
  let '(eval_loss, total_length) := acc in
  let '(data, target, lengths) :=
    process_data data_batch (cuda args) sep_target in
  loss <- with_rng (network_forward whole_model data target lengths) ;;
  cur_length <- lift (int_sum lengths) ;;
  l <- lift (item loss) ;;
  ret (F64.add eval_loss (F64.mul l (F64.of_Z cur_length)),
       (total_length + cur_length)%Z).

(** [evaluate(model, data_source)].  The network it builds is a local
    variable: the assignment to its [loss_type] after the loop changes an
    object that is dropped on return. *)
Definition evaluate (model_arg : network) (data_source : list Batch)
  : M world spec_float :=
  emit EvEvaluate ;;;
  whole_model <- build_model ;;
  whole_model <- Pipeline_load_to_original_model whole_model
                   (model_path args) ;;
  let whole_model := set_training false whole_model in
  let whole_model := set_loss_type "full" whole_model in
  acc <- for_each data_source (F64.zero, 0%Z) (evaluate_batch whole_model) ;;
  let '(eval_loss, total_length) := acc in
  let whole_model := set_loss_type (loss args) whole_model in
  if (total_length =? 0)%Z then raise ZeroDivisionError
  else lift (math_exp (F64.div eval_loss (F64.of_Z total_length))).

(** The loss of each batch of an evaluation set under a network, with the
    number of tokens of the batch. *)
Fixpoint batch_losses (whole_model : network) (data_source : list Batch)
  : M rng (list (spec_float * Z)) :=
  match data_source with
  | [] => ret []
  | data_batch :: rest =>
      let '(data, target, lengths) :=
        process_data data_batch (cuda args) sep_target in
      loss <- network_forward whole_model data target lengths ;;
      cur_length <- lift (int_sum lengths) ;;
      l <- lift (item loss) ;;
      ps <- batch_losses whole_model rest ;;
      ret ((l, cur_length) :: ps)
  end.

(** The network that [evaluate] runs, given the parameters read from the
    checkpoint: in evaluation mode, with the criterion in mode [full]. *)
Definition evaluated_network (a : arch) (p : state_dict) : network :=
  mkNetwork a (mkRNNModel false (dropout_rate args) p "full").

(** [args.index_module] selects the architecture [a]. *)
Definition selects (a : arch) : Prop :=
  match a with
  | Linear => index_module args = "linear"
  | Gru => index_module args = "gru"
  end.

(** [dist.barrier()] *)
Definition dist_barrier : M world unit := emit EvBarrier.

(** [dist.broadcast(x, src)]: the source rank keeps its tensor, every
    other rank's tensor is overwritten by the one delivered.  The event
    records the tensor the rank holds afterwards.  A broadcast that never
    arrives blocks the process; here it raises. *)
Definition dist_broadcast (x : Tensor) (src : Z) : M world Tensor :=
  r <- gets rank ;;
  box <- gets inbox ;;
  if (r =? src)%Z then emit (EvBroadcast src x) ;;; ret x
  else match box with
       | y :: rest =>
           modify (with_inbox (fun _ => rest)) ;;;
           emit (EvBroadcast src y) ;;;
           ret y
       | [] => raise RuntimeError
       end.

(** [run_epoch(epoch, lr, best_val_ppl)] *)
Definition run_epoch (epoch : Z) (lr : spec_float)
  (best_val_ppl : option Tensor) : M world (spec_float * option Tensor) :=
  train corpus_train epoch lr ;;;
  dist_barrier ;;;
  Pipeline_save (model_path args) ;;;
  let val_ppl := mkTensor [1%nat] (Floats [F32.of_Z 1000]) in
  r <- gets rank ;;
  n <- gets world_size ;;
  val_ppl <-
    (if (r =? n - 1)%Z then
       m <- gets model ;;
       v <- evaluate m corpus_valid ;;
       val_ppl <- lift (setitem0 val_ppl v) ;;
       shown <- lift (item val_ppl) ;;
       emit (EvLogValid epoch shown) ;;;
       ret val_ppl
     else ret val_ppl) ;;
  val_ppl <- dist_broadcast val_ppl (n - 1) ;;
  promote <- lift (is_new_best best_val_ppl val_ppl) ;;
  if promote : bool then
    Pipeline_save (String.append (model_path args) ".best") ;;;
    ret (lr, Some val_ppl)
  else ret (lr, best_val_ppl).

(** One epoch on all the ranks of a run, in rank order, each process
    with the [best_val_ppl] it holds.  The processes meet at the
    collectives only: the tensor that the terminal rank (the last)
    broadcasts is what the broadcast delivers to every other rank. *)
Definition run_epoch_on_all_ranks (epoch : Z) (lr : spec_float)
  (procs : list (option Tensor * world))
  : list (result (spec_float * option Tensor) * world) :=
  match last procs with
  | None => []
  | Some (best_t, w_t) =>
      let sent :=
        last_broadcast
          (new_events w_t (snd (run_epoch epoch lr best_t w_t))) in
      map (fun p : option Tensor * world =>
             if (rank (snd p) =? world_size (snd p) - 1)%Z
             then run_epoch epoch lr (fst p) (snd p)
             else run_epoch epoch lr (fst p)
                    (with_inbox
                       (fun box => box ++ match sent with
                                          | Some x => [x]
                                          | None => []
                                          end) (snd p)))
          procs
  end.

(** The loop over the epochs of the main block. *)
Definition epoch_loop (lr : spec_float) : M world (spec_float * option Tensor) :=
  for_loop (map Z.of_nat (seq 1 (Z.to_nat (epochs args)))) (lr, None)
    (fun st epoch =>
       st' <- run_epoch epoch (fst st) (snd st) ;;
       ret (prof args, st')).

(** The main block: train if asked to, then evaluate on the test data.
    The block catches [KeyboardInterrupt] around the loop over the epochs;
    the model has no interrupts, so it is the block of a run that is not
    interrupted. *)
Definition main : M world spec_float :=
  (if do_train args then _ <- epoch_loop (lr0 args) ;; ret tt else ret tt) ;;;
  m <- gets model ;;
  evaluate m corpus_test.


#[local] Instance trains_preorder : PreOrder trains.
Proof.
  split.
  - intros w. repeat split. exists []. rewrite app_nil_r. auto.
  - intros w1 w2 w3 (Hr & Hn & Hd & Hi & evs & Ht & He)
      (Hr' & Hn' & Hd' & Hi' & evs' & Ht' & He').
    repeat split; try congruence.
    exists (evs ++ evs'). rewrite Ht', Ht, forallb_app, He, He', app_assoc.
    auto.
Qed.

#[local] Instance draws_only_preorder : PreOrder draws_only.
Proof.
  split.
  - intros w. repeat split.
  - intros w1 w2 w3 (? & ? & ? & ? & ? & ? & ?) (? & ? & ? & ? & ? & ? & ?).
    repeat split; congruence.
Qed.

Lemma emit_trains (e : event) : batch_event e = true -> keeps trains (emit e).
Proof.
  intros He w. repeat split. exists [e]. simpl. rewrite He. auto.
Qed.

Lemma modify_trains (f : world -> world) :
  (forall w, rank (f w) = rank w /\ world_size (f w) = world_size w /\
             disk (f w) = disk w /\ inbox (f w) = inbox w /\
             trace (f w) = trace w) ->
  keeps trains (modify f).
Proof.
  intros H w. destruct (H w) as (? & ? & ? & ? & Ht). repeat split; auto.
  exists []. simpl. rewrite app_nil_r. auto.
Qed.

Lemma with_rng_trains {A} (c : M rng A) : keeps trains (with_rng c).
Proof.
  intros w. unfold with_rng. destruct (c (generator w)) as [r g].
  repeat split. exists []. simpl. rewrite app_nil_r. auto.
Qed.

Lemma with_rng_draws_only {A} (c : M rng A) : keeps draws_only (with_rng c).
Proof.
  intros w. unfold with_rng. destruct (c (generator w)) as [r g].
  repeat split.
Qed.

(** One step of a proof that a program keeps a relation, chosen by the
    shape of the program. *)
Ltac keeps_step :=
  lazymatch goal with
  | |- keeps _ (bind _ _) => refine (keeps_bind _ _ _ _ _); [|intros ?]
  | |- keeps _ (ret _) => refine (keeps_ret _ _)
  | |- keeps _ (raise _) => refine (keeps_raise _ _)
  | |- keeps _ (lift _) => refine (keeps_lift _ _)
  | |- keeps _ (gets _) => refine (keeps_gets _ _)
  | |- keeps _ (for_each _ _ _) =>
      refine (keeps_for_each _ _ _ _ _); intros ? ?
  | |- keeps _ (for_loop _ _ _) =>
      refine (keeps_for_loop _ _ _ _ _); intros ? ?
  | |- keeps trains (with_rng _) => apply with_rng_trains
  | |- keeps draws_only (with_rng _) => apply with_rng_draws_only
  | |- keeps trains (emit _) => apply emit_trains; reflexivity
  | |- keeps trains (modify _) =>
      apply modify_trains; intros ?; repeat split
  | |- keeps _ (if ?b then _ else _) => destruct b
  | |- keeps _ (match ?x with _ => _ end) => destruct x
  end.

Lemma train_batch_trains (epoch : Z) (lr total_loss : spec_float)
  (it : Z * Batch) : keeps trains (train_batch epoch lr total_loss it).
Proof.
  unfold train_batch.
  destruct (process_data (snd it) (cuda args) sep_target)
    as [[data target] lengths].
  repeat keeps_step.
Qed.

Lemma train_events (data_source : list Batch) (epoch : Z) (lr : spec_float)
  (w : world) :
  let w' := snd (train data_source epoch lr w) in
  rank w' = rank w /\ world_size w' = world_size w /\
  disk w' = disk w /\ inbox w' = inbox w /\
  exists evs, trace w' = trace w ++ EvTrain epoch :: evs /\
              forallb batch_event evs = true.
Proof.
  set (rest :=
         modify (with_model (set_training true)) ;;;
         modify (with_generator (fun _ => manual_seed epoch)) ;;;
         _ <- for_loop (enumerate data_source) F64.zero
                (train_batch epoch lr) ;;
         ret tt).
  assert (Hrest : keeps trains rest).
  { subst rest. repeat first [apply train_batch_trains | keeps_step]. }
  intros w'.
  assert (Hw' : w' = snd (rest (with_trace (fun t => t ++ [EvTrain epoch]) w)))
    by reflexivity.
  destruct (Hrest (with_trace (fun t => t ++ [EvTrain epoch]) w))
    as (Hr & Hn & Hd & Hi & evs & Ht & He).
  rewrite <- Hw' in *. simpl in *.
  repeat split; auto.
  exists evs. rewrite Ht, <- app_assoc. auto.
Qed.

Lemma emit_commutes_with_model (g : network -> network) (e : event) :
  commutes (with_model g) (emit e).
Proof. apply commutes_modify. intros []. reflexivity. Qed.

Lemma with_rng_commutes_with_model {A} (g : network -> network)
  (c : M rng A) : commutes (with_model g) (with_rng c).
Proof.
  intros [r n m gr gen d box t]. unfold with_rng; simpl.
  destruct (c gen); reflexivity.
Qed.

Ltac commutes_step :=
  lazymatch goal with
  | |- commutes _ (bind _ _) => refine (commutes_bind _ _ _ _ _); [|intros ?]
  | |- commutes _ (ret _) => apply commutes_ret
  | |- commutes _ (raise _) => apply commutes_raise
  | |- commutes _ (lift _) => apply commutes_lift
  | |- commutes _ (gets _) => apply commutes_gets; intros []; reflexivity
  | |- commutes _ (for_each _ _ _) => apply commutes_for_each; intros ? ?
  | |- commutes _ (with_rng _) => apply with_rng_commutes_with_model
  | |- commutes _ (emit _) => apply emit_commutes_with_model
  | |- commutes _ (if ?b then _ else _) => destruct b
  | |- commutes _ (match ?x with _ => _ end) => destruct x
  end.

(** [evaluate] reads neither its argument nor the process's model. *)
Lemma evaluate_commutes_with_model (g : network -> network)
  (model_arg : network) (data_source : list Batch) :
  commutes (with_model g) (evaluate model_arg data_source).
Proof.
  unfold evaluate, build_model, Pipeline_load_to_original_model,
    evaluate_batch.
  repeat commutes_step.
Qed.

Lemma evaluate_events (model_arg : network) (data_source : list Batch)
  (w : world) :
  let w' := snd (evaluate model_arg data_source w) in
  rank w' = rank w /\ world_size w' = world_size w /\
  model w' = model w /\ grads w' = grads w /\
  disk w' = disk w /\ inbox w' = inbox w /\
  trace w' = trace w ++ [EvEvaluate].
Proof.
  set (rest :=
         whole_model <- build_model ;;
         whole_model <- Pipeline_load_to_original_model whole_model
                          (model_path args) ;;
         let whole_model := set_training false whole_model in
         let whole_model := set_loss_type "full" whole_model in
         acc <- for_each data_source (F64.zero, 0%Z)
                  (evaluate_batch whole_model) ;;
         let '(eval_loss, total_length) := acc in
         let whole_model := set_loss_type (loss args) whole_model in
         if (total_length =? 0)%Z then raise ZeroDivisionError
         else lift (math_exp (F64.div eval_loss (F64.of_Z total_length)))).
  assert (Hrest : keeps draws_only rest).
  { subst rest.
    unfold build_model, Pipeline_load_to_original_model, evaluate_batch.
    repeat keeps_step. }
  intros w'.
  assert (Hw' : w' = snd (rest (with_trace (fun t => t ++ [EvEvaluate]) w)))
    by reflexivity.
  destruct (Hrest (with_trace (fun t => t ++ [EvEvaluate]) w))
    as (Hr & Hn & Hm & Hg & Hd & Hi & Ht).
  rewrite <- Hw' in *. simpl in *. repeat split; auto.
Qed.

Lemma with_generator_twice (g g' : rng) (w : world) :
  with_generator (fun _ => g') (with_generator (fun _ => g) w)
  = with_generator (fun _ => g') w.
Proof. destruct w; reflexivity. Qed.

Lemma with_generator_same (w : world) :
  with_generator (fun _ => generator w) w = w.
Proof. destruct w; reflexivity. Qed.

(** The loop of [evaluate]: its two variables accumulate the weighted
    losses and the token counts of the batches. *)
Lemma evaluate_loop (whole_model : network) (data_source : list Batch) :
  forall (eval_loss : spec_float) (total_length : Z) (w : world)
         (ps : list (spec_float * Z)) (g' : rng),
    batch_losses whole_model data_source (generator w) = (Ok ps, g') ->
    for_each data_source (eval_loss, total_length)
      (evaluate_batch whole_model) w
    = (Ok (fold_left F64.add
             (map (fun p => F64.mul (fst p) (F64.of_Z (snd p))) ps) eval_loss,
           (total_length + fold_right Z.add 0 (map snd ps))%Z),
       with_generator (fun _ => g') w).
Proof.
  induction data_source as [|b rest IH]; intros el tl w ps g' H.
  - injection H as <- <-. simpl. rewrite Z.add_0_r, with_generator_same.
    reflexivity.
  - cbn [batch_losses for_each] in *. unfold evaluate_batch at 1.
    unfold bind, lift, with_rng in *.
    destruct (process_data b (cuda args) sep_target) as [[data target] lengths].
    destruct (network_forward whole_model data target lengths (generator w))
      as [[loss|e] g1]; [|discriminate].
    destruct (int_sum lengths) as [cur|e]; [|discriminate].
    destruct (item loss) as [l|e]; [|discriminate].
    destruct (batch_losses whole_model rest g1) as [[ps'|e] g2] eqn:Hrest;
      [|discriminate].
    injection H as <- <-. cbn [ret fst snd].
    rewrite (IH _ _ (with_generator (fun _ => g1) w) ps' g2 Hrest).
    rewrite with_generator_twice. cbn [map fold_left fold_right fst snd].
    do 3 f_equal. lia.
Qed.

Lemma build_model_selected (a : arch) (w : world) (init : state_dict)
  (g1 : rng) :
  selects a ->
  init_parameters a (generator w) = (Ok init, g1) ->
  build_model w
  = (Ok (mkNetwork a (mkRNNModel true (dropout_rate args) init (loss args))),
     with_generator (fun _ => g1) w).
Proof.
  intros Ha Hinit. unfold build_model, selects in *.
  destruct a; rewrite Ha; cbn [bool_decide decide_rel];
    [rewrite bool_decide_eq_true_2 by reflexivity
    |rewrite bool_decide_eq_false_2 by discriminate;
     rewrite bool_decide_eq_true_2 by reflexivity];
    unfold bind, with_rng; rewrite Hinit; reflexivity.
Qed.

(** [evaluate] up to its loop, when the network is built and the
    checkpoint loads. *)
Lemma evaluate_loaded (a : arch) (model_arg : network)
  (data_source : list Batch) (w : world) (init : state_dict) (g1 : rng)
  (parts : list state_dict) :
  selects a ->
  init_parameters a (generator w) = (Ok init, g1) ->
  read_parts (disk w) (model_path args) (Z.to_nat (world_size w))
    = Some parts ->
  map shape (concat parts) = map shape init ->
  evaluate model_arg data_source w
  = (acc <- for_each data_source (F64.zero, 0%Z)
              (evaluate_batch (evaluated_network a (concat parts))) ;;
     let '(eval_loss, total_length) := acc in
     if (total_length =? 0)%Z then raise ZeroDivisionError
     else lift (math_exp (F64.div eval_loss (F64.of_Z total_length))))
      (with_generator (fun _ => g1)
         (with_trace (fun t => t ++ [EvEvaluate]) w)).
Proof.
  intros Ha Hinit Hparts Hshape.
  unfold evaluate. unfold bind at 1. cbn [emit modify].
  unfold bind at 1.
  rewrite (build_model_selected a _ init g1 Ha) by (destruct w; exact Hinit).
  unfold bind at 1. unfold Pipeline_load_to_original_model.
  unfold bind at 1. cbn [gets]. unfold bind at 1. cbn [gets].
  replace (disk (with_generator _ _)) with (disk w) by (destruct w; reflexivity).
  replace (world_size (with_generator _ _)) with (world_size w)
    by (destruct w; reflexivity).
  rewrite Hparts. cbn [net weights].
  rewrite decide_True by exact Hshape. reflexivity.
Qed.

(** C6: when the options select an architecture, the new network is
    initialised and the checkpoint under [model_path] has a file of the
    right shapes for every rank, [evaluate] runs the network whose
    parameters are those read from the files (not the new network's own),
    in evaluation mode and with the criterion in mode [full], on every
    batch, and returns the exponential of the length-weighted mean of the
    batch losses. *)
Theorem evaluate_returns_checkpoint_perplexity (a : arch)
  (model_arg : network) (data_source : list Batch) (w : world)
  (init : state_dict) (g1 g2 : rng) (parts : list state_dict)
  (ps : list (spec_float * Z)) :
  selects a ->
  init_parameters a (generator w) = (Ok init, g1) ->
  read_parts (disk w) (model_path args) (Z.to_nat (world_size w))
    = Some parts ->
  map shape (concat parts) = map shape init ->
  batch_losses (evaluated_network a (concat parts)) data_source g1
    = (Ok ps, g2) ->
  fold_right Z.add 0%Z (map snd ps) <> 0%Z ->
  fst (evaluate model_arg data_source w)
  = math_exp (length_weighted_mean ps).
Proof.
  intros Ha Hinit Hparts Hshape Hlosses Htotal.
  rewrite (evaluate_loaded a model_arg data_source w init g1 parts)
    by assumption.
  unfold bind.
  rewrite (evaluate_loop _ _ F64.zero 0%Z _ ps g2)
    by (destruct w; exact Hlosses).
  cbn [fst snd]. rewrite Z.add_0_l.
  destruct (Z.eqb_spec (fold_right Z.add 0%Z (map snd ps)) 0) as [H0|_];
    [contradiction|].
  reflexivity.
Qed.

(** C9: on an evaluation set without batches [evaluate] returns no
    perplexity.  When the network is built and the checkpoint loads, the
    loop leaves [total_length] at 0 and the final division raises
    [ZeroDivisionError]. *)
Theorem evaluate_empty_raises_zero_division (a : arch)
  (model_arg : network) (w : world) (init : state_dict) (g1 : rng)
  (parts : list state_dict) :
  selects a ->
  init_parameters a (generator w) = (Ok init, g1) ->
  read_parts (disk w) (model_path args) (Z.to_nat (world_size w))
    = Some parts ->
  map shape (concat parts) = map shape init ->
  fst (evaluate model_arg [] w) = Raise ZeroDivisionError /\
  for_each [] (F64.zero, 0%Z)
    (evaluate_batch (evaluated_network a (concat parts)))
    (with_generator (fun _ => g1) (with_trace (fun t => t ++ [EvEvaluate]) w))
  = (Ok (F64.zero, 0%Z),
     with_generator (fun _ => g1) (with_trace (fun t => t ++ [EvEvaluate]) w)).
Proof.
  intros Ha Hinit Hparts Hshape.
  rewrite (evaluate_loaded a model_arg [] w init g1 parts) by assumption.
  split; reflexivity.
Qed.

(** Whatever the state, [evaluate] on no batches raises. *)
Lemma evaluate_empty_never_returns (model_arg : network) (w : world) :
  exists e, fst (evaluate model_arg [] w) = Raise e.
Proof.
  unfold evaluate. unfold bind at 1. cbn [emit modify].
  unfold bind at 1.
  destruct (build_model _) as [[whole|e] w1]; [|simpl; eauto].
  unfold bind at 1.
  destruct (Pipeline_load_to_original_model whole (model_path args) w1)
    as [[loaded|e] w2]; simpl; eauto.
Qed.

(** C8: [evaluate] does not use its [model] argument, leaves the
    process's model (parameters, mode, criterion mode) and gradients as
    they were, and does not read them: changing the in-memory model
    beforehand changes neither what [evaluate] returns nor anything else
    it does. *)
Theorem evaluate_ignores_training_model (m1 m2 : network)
  (data_source : list Batch) (w : world) (change : network -> network) :
  evaluate m1 data_source w = evaluate m2 data_source w /\
  model (snd (evaluate m1 data_source w)) = model w /\
  grads (snd (evaluate m1 data_source w)) = grads w /\
  evaluate m1 data_source (with_model change w)
  = (fst (evaluate m2 data_source w),
     with_model change (snd (evaluate m2 data_source w))).
Proof.
  destruct (evaluate_events m1 data_source w)
    as (_ & _ & Hm & Hg & _).
  repeat split; auto.
  apply (evaluate_commutes_with_model change m1 data_source).
Qed.

(** The end of [run_epoch]: the broadcast and the promotion. *)
Lemma broadcast_and_promote_inv (lr : spec_float) (best : option Tensor)
  (val_ppl : Tensor) (src : Z) (w w' : world) (lr' : spec_float)
  (best' : option Tensor) :
  (val_ppl <- dist_broadcast val_ppl src ;;
   promote <- lift (is_new_best best val_ppl) ;;
   if promote : bool then
     Pipeline_save (String.append (model_path args) ".best") ;;;
     ret (lr, Some val_ppl)
   else ret (lr, best)) w = (Ok (lr', best'), w') ->
  exists held promote,
    (if (rank w =? src)%Z then held = val_ppl
     else exists rest, inbox w = held :: rest) /\
    is_new_best best held = Ok promote /\
    lr' = lr /\
    best' = (if promote then Some held else best) /\
    rank w' = rank w /\ world_size w' = world_size w /\
    trace w'
    = trace w ++ [EvBroadcast src held]
        ++ (if promote
            then [EvCheckpoint (String.append (model_path args) ".best")]
            else []).
Proof.
  unfold dist_broadcast. unfold bind at 1. unfold bind at 1. cbn [gets].
  unfold bind at 1. cbn [gets].
  destruct (rank w =? src)%Z.
  - unfold bind at 1. cbn [emit modify ret]. unfold bind at 1. cbn [lift].
    destruct (is_new_best best val_ppl) as [[]|e] eqn:Hbest;
      [| |discriminate].
    + unfold Pipeline_save, bind, emit, modify, ret. cbn.
      intros H. injection H as <- <- <-.
      exists val_ppl, true. destruct w; cbn. rewrite <- app_assoc.
      repeat split; auto.
    + cbn [ret]. intros H. injection H as <- <- <-.
      exists val_ppl, false. destruct w; cbn. repeat split; auto.
  - destruct (inbox w) as [|y rest] eqn:Hbox; [discriminate|].
    unfold bind at 1. unfold bind at 1. cbn [emit modify ret].
    unfold bind at 1. cbn [emit modify ret]. unfold bind at 1. cbn [lift].
    destruct (is_new_best best y) as [[]|e] eqn:Hbest; [| |discriminate].
    + unfold Pipeline_save, bind, emit, modify, ret. cbn.
      intros H. injection H as <- <- <-.
      exists y, true. destruct w; cbn in *. rewrite <- app_assoc.
      repeat split; eauto.
    + cbn [ret]. intros H. injection H as <- <- <-.
      exists y, false. destruct w; cbn in *. repeat split; eauto.
Qed.

(** The terminal rank's validation: [evaluate], then the score stored
    into [val_ppl] and logged. *)
Lemma validate_inv (epoch : Z) (w w' : world) (val_ppl : Tensor) :
  (m <- gets model ;;
   v <- evaluate m corpus_valid ;;
   val_ppl <- lift (setitem0 (mkTensor [1%nat] (Floats [F32.of_Z 1000])) v) ;;
   shown <- lift (item val_ppl) ;;
   emit (EvLogValid epoch shown) ;;;
   ret val_ppl) w = (Ok val_ppl, w') ->
  exists v shown,
    fst (evaluate (model w) corpus_valid w) = Ok v /\
    val_ppl = score (F32.round v) /\
    rank w' = rank w /\ world_size w' = world_size w /\
    inbox w' = inbox w /\
    trace w' = trace w ++ [EvEvaluate; EvLogValid epoch shown].
Proof.
  unfold bind at 1. cbn [gets]. unfold bind at 1.
  pose proof (evaluate_events (model w) corpus_valid w) as Hev.
  destruct (evaluate (model w) corpus_valid w) as [[v|e] w1];
    [|discriminate].
  cbv zeta in Hev. cbn [snd] in Hev.
  destruct Hev as (Hr & Hn & _ & _ & _ & Hi & Ht).
  unfold bind, lift, emit, modify, ret. cbn.
  intros H. injection H as <- <-.
  exists v, (F64.of_f32 (F32.round v)). destruct w1; cbn in *.
  rewrite Ht, <- app_assoc. repeat split; auto.
Qed.

(** What one call of [run_epoch] that returns has done, in order. *)
Lemma run_epoch_inv (epoch : Z) (lr : spec_float) (best : option Tensor)
  (w w' : world) (lr' : spec_float) (best' : option Tensor) :
  run_epoch epoch lr best w = (Ok (lr', best'), w') ->
  exists batch_evs eval_evs held promote,
    forallb batch_event batch_evs = true /\
    (if (rank w =? world_size w - 1)%Z
     then exists v shown,
         eval_evs = [EvEvaluate; EvLogValid epoch shown] /\
         held = score (F32.round v)
     else eval_evs = [] /\ exists rest, inbox w = held :: rest) /\
    is_new_best best held = Ok promote /\
    lr' = lr /\
    best' = (if promote then Some held else best) /\
    rank w' = rank w /\ world_size w' = world_size w /\
    trace w'
    = trace w ++ EvTrain epoch :: batch_evs
        ++ [EvBarrier; EvCheckpoint (model_path args)]
        ++ eval_evs
        ++ [EvBroadcast (world_size w - 1) held]
        ++ (if promote
            then [EvCheckpoint (String.append (model_path args) ".best")]
            else []).
Proof.
  unfold run_epoch. unfold bind at 1.
  pose proof (train_events corpus_train epoch lr w) as Htrain.
  destruct (train corpus_train epoch lr w) as [[[]|e] w1]; [|discriminate].
  cbv zeta in Htrain. cbn [snd] in Htrain.
  destruct Htrain as (Hr1 & Hn1 & Hd1 & Hi1 & batch_evs & Ht1 & Hb).
  unfold bind at 1. unfold dist_barrier at 1. cbn [emit modify].
  unfold bind at 1. unfold Pipeline_save at 1. unfold bind at 1.
  cbn [emit modify]. unfold bind at 1. cbn [gets]. unfold bind at 1.
  cbn [gets].
  set (w3 := with_trace _ (with_disk _ (with_trace _ w1))).
  assert (Hr3 : rank w3 = rank w) by (rewrite <- Hr1; destruct w1; reflexivity).
  assert (Hn3 : world_size w3 = world_size w)
    by (rewrite <- Hn1; destruct w1; reflexivity).
  assert (Hi3 : inbox w3 = inbox w) by (rewrite <- Hi1; destruct w1; reflexivity).
  assert (Ht3 : trace w3 = trace w ++ EvTrain epoch :: batch_evs
                             ++ [EvBarrier; EvCheckpoint (model_path args)]).
  { subst w3. destruct w1; simpl in *. rewrite Ht1, <- !app_assoc.
    reflexivity. }
  rewrite Hr3, Hn3. clearbody w3.
  unfold bind at 1.
  destruct (rank w =? world_size w - 1)%Z eqn:Hterm.
  - match goal with
    | |- context [match ?c w3 with _ => _ end] =>
        destruct (c w3) as [[val_ppl|e] w4] eqn:Hval
    end; [|discriminate].
    apply validate_inv in Hval.
    destruct Hval as (v & shown & _ & -> & Hr4 & Hn4 & Hi4 & Ht4).
    intros Htail. apply broadcast_and_promote_inv in Htail.
    destruct Htail as (held & promote & Hheld & Hbest & -> & -> & Hr' & Hn' & Ht').
    rewrite Hr4, Hr3, Hn4, Hn3 in *. rewrite Hterm in Hheld. subst held.
    exists batch_evs, [EvEvaluate; EvLogValid epoch shown],
      (score (F32.round v)), promote.
    repeat split; eauto.
    rewrite Ht', Ht4, Ht3. rewrite <- !app_assoc. cbn [app].
    rewrite <- !app_assoc. reflexivity.
  - cbn [ret]. intros Htail. apply broadcast_and_promote_inv in Htail.
    destruct Htail as (held & promote & Hheld & Hbest & -> & -> & Hr' & Hn' & Ht').
    rewrite Hr3, Hn3, Hi3 in *. rewrite Hterm in Hheld.
    exists batch_evs, [], held, promote.
    repeat split; eauto.
    rewrite Ht', Ht3. rewrite <- !app_assoc. cbn [app].
    rewrite <- !app_assoc. reflexivity.
Qed.






(** *** More on [build_model] and [evaluate] *)

Lemma build_model_unsupported (w : world) :
  index_module args <> "linear" ->
  index_module args <> "gru" ->
  build_model w = (Raise NotImplementedError, w).
Proof.
  intros Hl Hg. unfold build_model.
  rewrite (bool_decide_eq_false_2 _ Hl), (bool_decide_eq_false_2 _ Hg).
  reflexivity.
Qed.

(** X7: with an index module other than ['linear'] and ['gru'],
    [build_model] raises [NotImplementedError] without drawing from the
    generator or touching the process, and so does every [evaluate],
    before it reads a checkpoint or a batch. *)
Theorem unsupported_index_module_is_rejected (model_arg : network)
  (data_source : list Batch) (w : world) :
  index_module args <> "linear" ->
  index_module args <> "gru" ->
  build_model w = (Raise NotImplementedError, w) /\
  evaluate model_arg data_source w
  = (Raise NotImplementedError,
     with_trace (fun t => t ++ [EvEvaluate]) w).
Proof.
  intros Hl Hg. split; [apply build_model_unsupported; assumption|].
  unfold evaluate. unfold bind at 1. cbn [emit modify]. unfold bind at 1.
  rewrite build_model_unsupported by assumption. reflexivity.
Qed.

(** X8: [evaluate] raises [ZeroDivisionError] whenever the lengths of the
    evaluation set add up to zero, also when the set has batches and
    their forward passes succeed. *)
Theorem evaluate_without_tokens_raises (a : arch) (model_arg : network)
  (data_source : list Batch) (w : world) (init : state_dict) (g1 g2 : rng)
  (parts : list state_dict) (ps : list (spec_float * Z)) :
  selects a ->
  init_parameters a (generator w) = (Ok init, g1) ->
  read_parts (disk w) (model_path args) (Z.to_nat (world_size w))
    = Some parts ->
  map shape (concat parts) = map shape init ->
  batch_losses (evaluated_network a (concat parts)) data_source g1
    = (Ok ps, g2) ->
  fold_right Z.add 0%Z (map snd ps) = 0%Z ->
  fst (evaluate model_arg data_source w) = Raise ZeroDivisionError.
Proof.
  intros Ha Hinit Hparts Hshape Hlosses Htotal.
  rewrite (evaluate_loaded a model_arg data_source w init g1 parts)
    by assumption.
  unfold bind.
  rewrite (evaluate_loop _ _ F64.zero 0%Z _ ps g2)
    by (destruct w; exact Hlosses).
  rewrite Htotal. reflexivity.
Qed.

(** X9: whether it returns or raises, [evaluate] writes no checkpoint
    file, consumes no broadcast, and adds to the trace only the one event
    of its own start. *)
Theorem evaluate_writes_nothing (model_arg : network)
  (data_source : list Batch) (w : world) :
  disk (snd (evaluate model_arg data_source w)) = disk w /\
  inbox (snd (evaluate model_arg data_source w)) = inbox w /\
  rank (snd (evaluate model_arg data_source w)) = rank w /\
  world_size (snd (evaluate model_arg data_source w)) = world_size w /\
  new_events w (snd (evaluate model_arg data_source w)) = [EvEvaluate].
Proof.
  destruct (evaluate_events model_arg data_source w)
    as (Hr & Hn & _ & _ & Hd & Hi & Ht).
  repeat split; auto.
  unfold new_events. rewrite Ht. apply drop_app_length.
Qed.

(** *** More on [train] *)

(** [train] switches the model to training mode and reseeds the
    generator from the epoch number before the first batch: what it does
    and returns depends neither on the state of the generator nor on the
    mode of the model before the call. *)
Theorem train_resets_generator_and_mode (data_source : list Batch)
  (epoch : Z) (lr : spec_float) (change : rng -> rng) (mode : bool)
  (w : world) :
  train data_source epoch lr
    (with_generator change (with_model (set_training mode) w))
  = train data_source epoch lr w.
Proof. destruct w as [r n [a []] gr gen d box t]. reflexivity. Qed.

(** A process whose model is in training mode stays so. *)
Definition stays_in_training : relation world := fun w w' =>
  training (net (model w)) = true -> training (net (model w')) = true.

#[local] Instance stays_in_training_preorder : PreOrder stays_in_training.
Proof.
  split.
  - intros w H. exact H.
  - intros w1 w2 w3 H12 H23 H. apply H23, H12, H.
Qed.

Lemma with_rng_stays_in_training {A} (c : M rng A) :
  keeps stays_in_training (with_rng c).
Proof.
  intros w. unfold with_rng. destruct (c (generator w)) as [r g].
  destruct w. exact (fun H => H).
Qed.

Lemma train_batch_stays_in_training (epoch : Z) (lr total_loss : spec_float)
  (it : Z * Batch) :
  keeps stays_in_training (train_batch epoch lr total_loss it).
Proof.
  unfold train_batch, emit.
  destruct (process_data (snd it) (cuda args) sep_target)
    as [[data target] lengths].
  repeat lazymatch goal with
         | |- keeps _ (with_rng _) => apply with_rng_stays_in_training
         | |- keeps _ (modify _) =>
             refine (keeps_modify _ _ _); intros []; exact (fun H => H)
         | _ => keeps_step
         end.
Qed.

(** X10: [train] switches the model to training mode and nothing in it
    switches back: the model is in training mode when [train] is over,
    whether it returned or raised. *)
Theorem train_leaves_model_in_training_mode (data_source : list Batch)
  (epoch : Z) (lr : spec_float) (w : world) :
  training (net (model (snd (train data_source epoch lr w)))) = true.
Proof.
  set (rest :=
         _ <- for_loop (enumerate data_source) F64.zero
                (train_batch epoch lr) ;;
         ret tt).
  assert (Hrest : keeps stays_in_training rest).
  { subst rest. refine (keeps_bind _ _ _ _ _).
    - refine (keeps_for_loop _ _ _ _ _). intros ? ?.
      apply train_batch_stays_in_training.
    - intros ?. refine (keeps_ret _ _). }
  set (w3 := with_generator (fun _ => manual_seed epoch)
               (with_model (set_training true)
                  (with_trace (fun t => t ++ [EvTrain epoch]) w))).
  assert (Hw : snd (train data_source epoch lr w) = snd (rest w3))
    by reflexivity.
  rewrite Hw. apply (Hrest w3). destruct w. reflexivity.
Qed.


(** The events of one training step on batch [num_batch]. *)
Definition step_events (num_batch : Z) : list event :=
  [EvForward num_batch; EvClipGrad; EvOptimizerStep; EvZeroGrad].

Ltac run_train_batch w :=
  unfold train_batch; cbn [fst snd];
  destruct w as [r n m gr gen d box t];
  cbn [rank world_size model generator] in *;
  unfold bind, gets, emit, modify, with_rng, lift, ret, raise;
  cbv beta iota delta
    [rank world_size model generator with_trace with_grads with_model
     with_generator grads trace disk inbox fst snd].

(** A training step on a rank other than the terminal one: it returns
    when the pipeline call does, never breaks the loop and logs nothing. *)
Lemma train_batch_not_terminal (epoch num_batch : Z)
  (lr total_loss : spec_float) (b : Batch) (w w' : world)
  (res : bool * spec_float) :
  (rank w =? world_size w - 1)%Z = false ->
  train_batch epoch lr total_loss (num_batch, b) w = (Ok res, w') ->
  res = (false, total_loss) /\
  rank w' = rank w /\ world_size w' = world_size w /\
  trace w' = trace w ++ step_events num_batch.
Proof.
  intros Hterm. run_train_batch w.
  destruct (process_data b (cuda args) sep_target) as [[data target] lengths].
  rewrite Hterm.
  match goal with
  | |- context [Pipeline_call ?a ?b ?c ?d ?e ?f] =>
      destruct (Pipeline_call a b c d e f) as [[out|e0] g']
  end; [|discriminate].
  cbv beta iota delta
    [rank world_size model generator with_trace with_grads with_model
     with_generator grads trace disk inbox fst snd].
  intros H. injection H as <- <-. cbn [rank world_size trace].
  rewrite <- !app_assoc. repeat split; reflexivity.
Qed.

(** A training step on the terminal rank when profiling: if it returns,
    it breaks the loop. *)
Lemma train_batch_profiling (epoch num_batch : Z)
  (lr total_loss : spec_float) (b : Batch) (w w' : world)
  (res : bool * spec_float) :
  (rank w =? world_size w - 1)%Z = true ->
  prof args = true ->
  train_batch epoch lr total_loss (num_batch, b) w = (Ok res, w') ->
  fst res = true /\
  trace w' = trace w ++ step_events num_batch.
Proof.
  intros Hterm Hprof. run_train_batch w.
  destruct (process_data b (cuda args) sep_target) as [[data target] lengths].
  rewrite Hterm, Hprof.
  match goal with
  | |- context [Pipeline_call ?a ?b ?c ?d ?e ?f] =>
      destruct (Pipeline_call a b c d e f) as [[out|e0] g']
  end; [|discriminate].
  cbv beta iota delta
    [rank world_size model generator with_trace with_grads with_model
     with_generator grads trace disk inbox fst snd].
  destruct out as [[loss|] gs]; [|discriminate].
  destruct (item loss) as [l|e0]; [|discriminate].
  cbv beta iota. intros H. injection H as <- <-. cbn [fst trace].
  rewrite <- !app_assoc. split; reflexivity.
Qed.

Lemma train_loop_not_terminal (epoch : Z) (lr : spec_float)
  (its : list (Z * Batch)) :
  forall (total_loss total_loss' : spec_float) (w w' : world),
    (rank w =? world_size w - 1)%Z = false ->
    for_loop its total_loss (train_batch epoch lr) w = (Ok total_loss', w') ->
    trace w' = trace w ++ flat_map step_events (map fst its).
Proof.
  induction its as [|[i b] its IH]; intros tl tl' w w' Hterm Hloop.
  - injection Hloop as <- <-. simpl. rewrite app_nil_r. reflexivity.
  - cbn [for_loop] in Hloop. unfold bind in Hloop.
    destruct (train_batch epoch lr tl (i, b) w) as [[res|e] w1] eqn:Hstep;
      [|discriminate].
    apply train_batch_not_terminal in Hstep; [|exact Hterm].
    destruct Hstep as (-> & Hr & Hn & Ht). cbn [fst snd] in Hloop.
    apply IH in Hloop; [|rewrite Hr, Hn; exact Hterm].
    rewrite Hloop, Ht. cbn [map flat_map fst]. rewrite <- app_assoc.
    reflexivity.
Qed.

Lemma enumerate_indices {A} (xs : list A) :
  map fst (enumerate xs) = map Z.of_nat (seq 0 (length xs)).
Proof.
  unfold enumerate. apply fst_zip. rewrite length_map, length_seq. lia.
Qed.

(** The state in which the loop of [train] starts. *)
Lemma train_unfold (data_source : list Batch) (epoch : Z) (lr : spec_float)
  (w : world) :
  train data_source epoch lr w
  = (_ <- for_loop (enumerate data_source) F64.zero (train_batch epoch lr) ;;
     ret tt)
      (with_generator (fun _ => manual_seed epoch)
         (with_model (set_training true)
            (with_trace (fun t => t ++ [EvTrain epoch]) w))).
Proof. reflexivity. Qed.

(** X11: on a rank other than the terminal one, a [train] that returns
    has run one full step (forward, clipping, optimizer step, gradient
    reset) for every batch of the data, in order, and has logged nothing,
    whatever [args.prof] and [args.log_interval] are. *)
Theorem train_on_other_ranks_runs_every_batch (data_source : list Batch)
  (epoch : Z) (lr : spec_float) (w w' : world) :
  (rank w =? world_size w - 1)%Z = false ->
  train data_source epoch lr w = (Ok tt, w') ->
  new_events w w'
  = EvTrain epoch
      :: flat_map step_events
           (map Z.of_nat (seq 0 (length data_source))).
Proof.
  intros Hterm. rewrite train_unfold. unfold bind.
  match goal with
  | |- context [for_loop ?its ?tl ?body ?w3] =>
      destruct (for_loop its tl body w3) as [[tl'|e] w1] eqn:Hloop
  end; [|discriminate].
  intros H. injection H as <-.
  apply train_loop_not_terminal in Hloop;
    [|destruct w; exact Hterm].
  unfold new_events. rewrite Hloop, enumerate_indices.
  destruct w; cbn [trace with_generator with_model with_trace].
  rewrite <- app_assoc. apply drop_app_length.
Qed.

(** X12: on the terminal rank with [args.prof] set, a [train] that
    returns has run the step of the first batch only, and no other. *)
Theorem train_profiling_stops_after_first_batch (data_source : list Batch)
  (epoch : Z) (lr : spec_float) (w w' : world) :
  (rank w =? world_size w - 1)%Z = true ->
  prof args = true ->
  train data_source epoch lr w = (Ok tt, w') ->
  new_events w w'
  = EvTrain epoch
      :: match data_source with [] => [] | _ :: _ => step_events 0 end.
Proof.
  intros Hterm Hprof. rewrite train_unfold. unfold bind.
  destruct data_source as [|b rest].
  - cbn. intros H. injection H as <-. unfold new_events.
    destruct w; cbn [trace with_generator with_model with_trace].
    apply drop_app_length.
  - unfold enumerate. cbn [length seq map zip zip_with for_loop].
    unfold bind.
    match goal with
    | |- context [train_batch ?e ?l ?tl ?it ?w3] =>
        destruct (train_batch e l tl it w3) as [[res|e0] w1] eqn:Hstep
    end; [|discriminate].
    apply train_batch_profiling in Hstep;
      [| destruct w; exact Hterm | exact Hprof].
    destruct Hstep as [Hbreak Ht]. rewrite Hbreak. cbn [ret].
    intros H. injection H as <-. unfold new_events. rewrite Ht.
    destruct w; cbn [trace with_generator with_model with_trace].
    rewrite <- app_assoc. apply drop_app_length.
Qed.

(** X13: a log batch on the terminal rank (batch number a positive
    multiple of [args.log_interval], no profiling).  After the optimizer
    step, the average [cur_loss] of [total_loss] over the interval goes
    through [math.exp]: if that succeeds the step logs the two and resets
    [total_loss] to 0; if it raises (an average too large for [exp]), the
    step raises the same, the optimizer step already done. *)
Theorem train_batch_log_line (epoch num_batch : Z)
  (lr total_loss : spec_float) (b : Batch) (w : world)
  (data target lengths loss : Tensor) (gs : state_dict) (g' : rng)
  (l : spec_float) :
  process_data b (cuda args) sep_target = (data, target, lengths) ->
  Pipeline_call (rank w) (world_size w) (model w)
    (if (rank w =? 0)%Z then Some data else None)
    (if (rank w =? world_size w - 1)%Z then [target; lengths] else [])
    (generator w)
  = (Ok (Some loss, gs), g') ->
  item loss = Ok l ->
  (rank w =? world_size w - 1)%Z = true ->
  prof args = false ->
  (log_interval args =? 0)%Z = false ->
  ((num_batch mod log_interval args =? 0) && (0 <? num_batch))%Z = true ->
  let out := train_batch epoch lr total_loss (num_batch, b) w in
  let cur_loss :=
    F64.div (F64.add total_loss l) (F64.of_Z (log_interval args)) in
  match math_exp cur_loss with
  | Ok ppl =>
      fst out = Ok (false, F64.zero) /\
      new_events w (snd out)
      = step_events num_batch ++ [EvLogTrain epoch num_batch cur_loss ppl]
  | Raise e =>
      fst out = Raise e /\
      new_events w (snd out) = step_events num_batch
  end.
Proof.
  intros Hpd Hcall Hitem Hterm Hprof Hli Hlog out cur_loss.
  subst out cur_loss. unfold new_events. run_train_batch w.
  rewrite Hpd, Hterm in *. rewrite Hcall.
  cbv beta iota delta
    [rank world_size model generator with_trace with_grads with_model
     with_generator grads trace disk inbox fst snd].
  rewrite Hitem, Hprof, Hli, Hlog.
  destruct (math_exp _) as [ppl|e];
    cbv beta iota delta [fst snd trace];
    rewrite <- ?app_assoc; cbn [app]; rewrite drop_app_length;
    split; reflexivity.
Qed.

(** X14: with [args.log_interval] 0 (and no profiling) the terminal rank's
    first training step raises [ZeroDivisionError], from the remainder
    [num_batch % args.log_interval], after the optimizer step is done. *)
Theorem train_batch_zero_log_interval (epoch num_batch : Z)
  (lr total_loss : spec_float) (b : Batch) (w : world)
  (data target lengths loss : Tensor) (gs : state_dict) (g' : rng)
  (l : spec_float) :
  process_data b (cuda args) sep_target = (data, target, lengths) ->
  Pipeline_call (rank w) (world_size w) (model w)
    (if (rank w =? 0)%Z then Some data else None)
    (if (rank w =? world_size w - 1)%Z then [target; lengths] else [])
    (generator w)
  = (Ok (Some loss, gs), g') ->
  item loss = Ok l ->
  (rank w =? world_size w - 1)%Z = true ->
  prof args = false ->
  log_interval args = 0%Z ->
  let out := train_batch epoch lr total_loss (num_batch, b) w in
  fst out = Raise ZeroDivisionError /\
  new_events w (snd out) = step_events num_batch /\
  weights (net (model (snd out)))
  = Adam_step (weights (net (model w))) (clip_grad_norm gs (clip args)).
Proof.
  intros Hpd Hcall Hitem Hterm Hprof Hli out.
  subst out. unfold new_events. run_train_batch w.
  rewrite Hpd, Hterm in *. rewrite Hcall.
  cbv beta iota delta
    [rank world_size model generator with_trace with_grads with_model
     with_generator grads trace disk inbox fst snd].
  rewrite Hitem, Hprof, Hli. cbn [Z.eqb].
  cbv beta iota delta [fst snd trace model].
  rewrite <- ?app_assoc; cbn [app]; rewrite drop_app_length.
  repeat split; reflexivity.
Qed.


(** *** The checkpoint files of an epoch *)

Lemma best_path_differs (s : string) : String.append s ".best" <> s.
Proof.
  induction s as [|c s IH]; [discriminate|].
  intros H. apply IH. change (String c (String.append s ".best") = String c s) in H.
  injection H as H. exact H.
Qed.

(** The terminal rank's validation changes neither the files nor the
    model. *)
Lemma validate_frame (epoch : Z) (w w' : world) (val_ppl : Tensor) :
  (m <- gets model ;;
   v <- evaluate m corpus_valid ;;
   val_ppl <- lift (setitem0 (mkTensor [1%nat] (Floats [F32.of_Z 1000])) v) ;;
   shown <- lift (item val_ppl) ;;
   emit (EvLogValid epoch shown) ;;;
   ret val_ppl) w = (Ok val_ppl, w') ->
  disk w' = disk w /\ model w' = model w.
Proof.
  unfold bind at 1. cbn [gets]. unfold bind at 1.
  pose proof (evaluate_events (model w) corpus_valid w) as Hev.
  destruct (evaluate (model w) corpus_valid w) as [[v|e] w1];
    [|discriminate].
  cbv zeta in Hev. cbn [snd] in Hev.
  destruct Hev as (_ & _ & Hm & _ & Hd & _ & _).
  unfold bind, lift, emit, modify, ret. cbn.
  intros H. injection H as <- <-.
  destruct w1; cbn in *. split; assumption.
Qed.

(** The files after the broadcast and the promotion. *)
Lemma broadcast_and_promote_disk (lr : spec_float) (best : option Tensor)
  (val_ppl : Tensor) (src : Z) (w w' : world)
  (res : spec_float * option Tensor) :
  (val_ppl <- dist_broadcast val_ppl src ;;
   promote <- lift (is_new_best best val_ppl) ;;
   if promote : bool then
     Pipeline_save (String.append (model_path args) ".best") ;;;
     ret (lr, Some val_ppl)
   else ret (lr, best)) w = (Ok res, w') ->
  exists held promote,
    is_new_best best held = Ok promote /\
    snd res = (if promote then Some held else best) /\
    rank w' = rank w /\ world_size w' = world_size w /\
    model w' = model w /\
    disk w'
    = (if promote
       then <[ (String.append (model_path args) ".best", rank w) :=
                 partition (world_size w) (rank w)
                   (weights (net (model w))) ]> (disk w)
       else disk w).
Proof.
  unfold dist_broadcast. unfold bind at 1. unfold bind at 1. cbn [gets].
  unfold bind at 1. cbn [gets].
  destruct (rank w =? src)%Z.
  - unfold bind at 1. cbn [emit modify ret]. unfold bind at 1. cbn [lift].
    destruct (is_new_best best val_ppl) as [[]|e] eqn:Hbest;
      [| |discriminate].
    + unfold Pipeline_save, bind, emit, modify, ret. cbn.
      intros H. injection H as <- <-.
      exists val_ppl, true. destruct w; cbn. repeat split; auto.
    + cbn [ret]. intros H. injection H as <- <-.
      exists val_ppl, false. destruct w; cbn. repeat split; auto.
  - destruct (inbox w) as [|y rest] eqn:Hbox; [discriminate|].
    unfold bind at 1. unfold bind at 1. cbn [emit modify ret].
    unfold bind at 1. cbn [emit modify ret]. unfold bind at 1. cbn [lift].
    destruct (is_new_best best y) as [[]|e] eqn:Hbest; [| |discriminate].
    + unfold Pipeline_save, bind, emit, modify, ret. cbn.
      intros H. injection H as <- <-.
      exists y, true. destruct w; cbn in *. repeat split; auto.
    + cbn [ret]. intros H. injection H as <- <-.
      exists y, false. destruct w; cbn in *. repeat split; auto.
Qed.

(** X15: the files of an epoch that returns.  The rank has written its
    partition of the parameters, as training left them, under
    [model_path]; if the epoch promoted, it has written the same
    parameters under the [.best] path too, and otherwise the [.best] file
    is as it was; no file of another rank is created or changed. *)
Theorem run_epoch_checkpoint_files (epoch : Z) (lr : spec_float)
  (best : option Tensor) (w w' : world) (res : spec_float * option Tensor) :
  run_epoch epoch lr best w = (Ok res, w') ->
  let saved :=
    partition (world_size w') (rank w') (weights (net (model w'))) in
  let best_path := String.append (model_path args) ".best" in
  exists held promote,
    is_new_best best held = Ok promote /\
    snd res = (if promote then Some held else best) /\
    model w' = model (snd (train corpus_train epoch lr w)) /\
    disk w' !! (model_path args, rank w') = Some saved /\
    disk w' !! (best_path, rank w')
    = (if promote then Some saved else disk w !! (best_path, rank w')) /\
    (forall path r, r <> rank w' -> disk w' !! (path, r) = disk w !! (path, r)).
Proof.
  unfold run_epoch. unfold bind at 1.
  pose proof (train_events corpus_train epoch lr w) as Htrain.
  destruct (train corpus_train epoch lr w) as [[[]|e] w1]; [|discriminate].
  cbv zeta in Htrain. cbn [snd] in Htrain.
  destruct Htrain as (Hr1 & Hn1 & Hd1 & _ & _).
  unfold bind at 1. unfold dist_barrier at 1. cbn [emit modify].
  unfold bind at 1. unfold Pipeline_save at 1. unfold bind at 1.
  cbn [emit modify]. unfold bind at 1. cbn [gets]. unfold bind at 1.
  cbn [gets].
  set (w3 := with_trace _ (with_disk _ (with_trace _ w1))).
  assert (Hr3 : rank w3 = rank w1) by (destruct w1; reflexivity).
  assert (Hn3 : world_size w3 = world_size w1) by (destruct w1; reflexivity).
  assert (Hm3 : model w3 = model w1) by (destruct w1; reflexivity).
  assert (Hd3 : disk w3
                = <[ (model_path args, rank w1) :=
                       partition (world_size w1) (rank w1)
                         (weights (net (model w1))) ]> (disk w1))
    by (destruct w1; reflexivity).
  clearbody w3. unfold bind at 1.
  assert (Htail : forall val_ppl w4,
             disk w4 = disk w3 -> model w4 = model w3 ->
             rank w4 = rank w3 -> world_size w4 = world_size w3 ->
             (val_ppl <- dist_broadcast val_ppl (world_size w3 - 1) ;;
              promote <- lift (is_new_best best val_ppl) ;;
              if promote : bool then
                Pipeline_save (String.append (model_path args) ".best") ;;;
                ret (lr, Some val_ppl)
              else ret (lr, best)) w4 = (Ok res, w') ->
             exists held promote,
               is_new_best best held = Ok promote /\
               snd res = (if promote then Some held else best) /\
               model w' = model w1 /\
               disk w' !! (model_path args, rank w')
               = Some (partition (world_size w') (rank w')
                         (weights (net (model w')))) /\
               disk w' !! (String.append (model_path args) ".best", rank w')
               = (if promote
                  then Some (partition (world_size w') (rank w')
                               (weights (net (model w'))))
                  else disk w !! (String.append (model_path args) ".best",
                                  rank w')) /\
               (forall path r, r <> rank w' ->
                  disk w' !! (path, r) = disk w !! (path, r))).
  { intros val_ppl w4 Hd4 Hm4 Hr4 Hn4 H.
    apply broadcast_and_promote_disk in H.
    destruct H as (held & promote & Hbest & Hres & Hr' & Hn' & Hm' & Hd').
    exists held, promote.
    rewrite Hr', Hn', Hm', Hr4, Hn4, Hm4, Hr3, Hn3, Hm3.
    rewrite Hd', Hr4, Hn4, Hm4, Hd4, Hr3, Hn3, Hm3, Hd3, Hd1.
    repeat split; auto.
    - destruct promote.
      + rewrite lookup_insert_ne, lookup_insert_eq; [reflexivity|].
        intros H; injection H as H. exact (best_path_differs _ H).
      + apply lookup_insert_eq.
    - destruct promote.
      + apply lookup_insert_eq.
      + rewrite lookup_insert_ne; [reflexivity|].
        intros H; injection H as H. symmetry in H.
        exact (best_path_differs _ H).
    - intros path r0 Hr0. destruct promote.
      + rewrite !lookup_insert_ne; [reflexivity| |]; congruence.
      + rewrite lookup_insert_ne; [reflexivity|]; congruence. }
  destruct (rank w3 =? world_size w3 - 1)%Z.
  - match goal with
    | |- context [match ?c w3 with _ => _ end] =>
        destruct (c w3) as [[val_ppl|e] w4] eqn:Hval
    end; [|discriminate].
    pose proof Hval as Hinv. apply validate_frame in Hval.
    apply validate_inv in Hinv.
    destruct Hval as [Hd4 Hm4].
    destruct Hinv as (_ & _ & _ & _ & Hr4 & Hn4 & _).
    intros H. cbv zeta. eapply Htail; eauto.
  - cbn [ret]. intros H. cbv zeta. eapply Htail; eauto.
Qed.

(** *** The epochs of a run *)

Definition is_epoch_start (e : event) : bool :=
  match e with EvTrain _ => true | _ => false end.

Lemma batch_events_no_epoch_start (evs : list event) :
  forallb batch_event evs = true -> List.filter is_epoch_start evs = [].
Proof.
  induction evs as [|e evs IH]; simpl; [reflexivity|].
  intros H. apply andb_prop in H as [He Hevs].
  destruct e; try discriminate; simpl; auto.
Qed.

Lemma run_epoch_starts (epoch : Z) (lr : spec_float) (best : option Tensor)
  (w w' : world) (res : spec_float * option Tensor) :
  run_epoch epoch lr best w = (Ok res, w') ->
  exists evs, trace w' = trace w ++ evs /\
              List.filter is_epoch_start evs = [EvTrain epoch].
Proof.
  destruct res as [lr' best']. intros H. apply run_epoch_inv in H.
  destruct H as (batch_evs & eval_evs & held & promote & Hb & Heval & _
                 & _ & _ & _ & _ & Ht).
  eexists. split; [exact Ht|].
  cbn [List.filter is_epoch_start]. rewrite !List.filter_app.
  rewrite (batch_events_no_epoch_start _ Hb).
  assert (He : List.filter is_epoch_start eval_evs = []).
  { destruct (rank w =? world_size w - 1)%Z.
    - destruct Heval as (v & shown & -> & _). reflexivity.
    - destruct Heval as [-> _]. reflexivity. }
  rewrite He. destruct promote; reflexivity.
Qed.

Lemma epochs_run (es : list Z) :
  forall (st st' : spec_float * option Tensor) (w w' : world),
    for_loop es st
      (fun st epoch =>
         st' <- run_epoch epoch (fst st) (snd st) ;;
         ret (prof args, st')) w = (Ok st', w') ->
    exists evs, trace w' = trace w ++ evs /\
                List.filter is_epoch_start evs
                = map EvTrain (if prof args then take 1 es else es).
Proof.
  induction es as [|epoch es IH]; intros st st' w w' H.
  - injection H as <- <-. exists []. rewrite app_nil_r.
    destruct (prof args); auto.
  - cbn [for_loop] in H. unfold bind in H.
    destruct (run_epoch epoch (fst st) (snd st) w) as [[res|e] w1] eqn:Hrun;
      [|discriminate].
    apply run_epoch_starts in Hrun. destruct Hrun as (evs1 & Ht1 & Hs1).
    cbn [ret fst snd] in H. destruct (prof args) eqn:Hprof.
    + injection H as <- <-. exists evs1. auto.
    + apply IH in H. destruct H as (evs2 & Ht2 & Hs2).
      exists (evs1 ++ evs2). rewrite Ht2, Ht1, <- app_assoc.
      split; [reflexivity|]. rewrite List.filter_app, Hs1, Hs2. reflexivity.
Qed.

(** X16: a run of the main block that returns, not interrupted from the
    keyboard.  If training was asked
    for, the epochs 1 to [args.epochs] have each been started once, in
    order (none for a count of zero or less), or the first only under
    [args.prof]; otherwise none.  The run ends with the evaluation on the
    test data: its start is the last event. *)
Theorem main_runs_the_epochs_then_the_test (w w' : world) (ppl : spec_float) :
  main w = (Ok ppl, w') ->
  let all := map Z.of_nat (seq 1 (Z.to_nat (epochs args))) in
  exists evs,
    new_events w w' = evs ++ [EvEvaluate] /\
    List.filter is_epoch_start evs
    = (if do_train args
       then map EvTrain (if prof args then take 1 all else all)
       else []).
Proof.
  unfold main, epoch_loop. unfold bind at 1.
  destruct (do_train args).
  - unfold bind at 1.
    match goal with
    | |- context [for_loop ?es ?st ?body w] =>
        destruct (for_loop es st body w) as [[st'|e] w1] eqn:Hloop
    end; [|discriminate].
    apply epochs_run in Hloop. destruct Hloop as (evs & Ht & Hs).
    cbn [ret]. unfold bind. cbn [gets].
    pose proof (evaluate_events (model w1) corpus_test w1) as Hev.
    destruct (evaluate (model w1) corpus_test w1) as [[v|e] w2];
      [|discriminate].
    cbv zeta in Hev. cbn [snd] in Hev.
    destruct Hev as (_ & _ & _ & _ & _ & _ & Ht2).
    intros H. injection H as <- <-. cbv zeta. exists evs.
    split; [|exact Hs].
    unfold new_events. rewrite Ht2, Ht, <- app_assoc. apply drop_app_length.
  - cbn [ret]. unfold bind. cbn [gets].
    pose proof (evaluate_events (model w) corpus_test w) as Hev.
    destruct (evaluate (model w) corpus_test w) as [[v|e] w2];
      [|discriminate].
    cbv zeta in Hev. cbn [snd] in Hev.
    destruct Hev as (_ & _ & _ & _ & _ & _ & Ht2).
    intros H. injection H as <- <-. cbv zeta. exists [].
    split; [|reflexivity].
    unfold new_events. rewrite Ht2. apply drop_app_length.
Qed.


(** *** Every batch gets its step *)

Definition is_log_line (e : event) : bool :=
  match e with EvLogTrain _ _ _ _ => true | _ => false end.

Definition not_log_line (e : event) : bool := negb (is_log_line e).

(** A training step that returns, on any rank: its events are those of
    the step and at most a log line after them, and it breaks the loop
    only when profiling. *)
Lemma train_batch_returns (epoch num_batch : Z)
  (lr total_loss : spec_float) (b : Batch) (w w' : world)
  (res : bool * spec_float) :
  train_batch epoch lr total_loss (num_batch, b) w = (Ok res, w') ->
  rank w' = rank w /\ world_size w' = world_size w /\
  (prof args = false -> fst res = false) /\
  exists logs,
    trace w' = trace w ++ step_events num_batch ++ logs /\
    List.filter not_log_line logs = [].
Proof.
  run_train_batch w.
  destruct (process_data b (cuda args) sep_target) as [[data target] lengths].
  match goal with
  | |- context [Pipeline_call ?a ?b ?c ?d ?e ?f] =>
      destruct (Pipeline_call a b c d e f) as [[[loss gs]|e0] g']
  end; [|discriminate].
  cbv beta iota delta
    [rank world_size model generator with_trace with_grads with_model
     with_generator grads trace disk inbox fst snd].
  destruct (r =? n - 1)%Z.
  - destruct (match loss with
              | Some t0 => item t0
              | None => Raise AttributeError
              end) as [l|e0]; [|discriminate].
    cbv beta iota.
    destruct (prof args).
    + intros H. injection H as <- <-. cbn [rank world_size trace fst].
      repeat split; try discriminate.
      exists []. rewrite <- !app_assoc. split; reflexivity.
    + destruct (log_interval args =? 0)%Z; [discriminate|].
      destruct ((num_batch mod log_interval args =? 0) && (0 <? num_batch))%Z.
      * destruct (math_exp _) as [ppl|e0]; [|discriminate].
        cbv beta iota. intros H. injection H as <- <-.
        cbn [rank world_size trace fst]. repeat split.
        eexists [_]. rewrite <- !app_assoc. split; reflexivity.
      * intros H. injection H as <- <-. cbn [rank world_size trace fst].
        repeat split.
        exists []. rewrite <- !app_assoc. split; reflexivity.
  - intros H. injection H as <- <-. cbn [rank world_size trace fst].
    repeat split.
    exists []. rewrite <- !app_assoc. split; reflexivity.
Qed.

Lemma train_loop_every_batch (epoch : Z) (lr : spec_float)
  (its : list (Z * Batch)) :
  prof args = false ->
  forall (total_loss total_loss' : spec_float) (w w' : world),
    for_loop its total_loss (train_batch epoch lr) w = (Ok total_loss', w') ->
    exists evs,
      trace w' = trace w ++ evs /\
      List.filter not_log_line evs = flat_map step_events (map fst its).
Proof.
  intros Hprof.
  induction its as [|[i b] its IH]; intros tl tl' w w' Hloop.
  - injection Hloop as <- <-. exists []. rewrite app_nil_r. auto.
  - cbn [for_loop] in Hloop. unfold bind in Hloop.
    destruct (train_batch epoch lr tl (i, b) w) as [[res|e] w1] eqn:Hstep;
      [|discriminate].
    apply train_batch_returns in Hstep.
    destruct Hstep as (_ & _ & Hgo & logs & Ht & Hlogs).
    rewrite (Hgo Hprof) in Hloop.
    apply IH in Hloop. destruct Hloop as (evs & Ht' & Hevs).
    exists (step_events i ++ logs ++ evs). split.
    + rewrite Ht', Ht, <- !app_assoc. reflexivity.
    + rewrite !List.filter_app, Hlogs, Hevs. reflexivity.
Qed.

(** X18: without [args.prof], on every rank, a [train] that returns has
    run one full step for every batch of the data, in order; whatever else
    it has done are log lines. *)
Theorem train_steps_once_per_batch (data_source : list Batch)
  (epoch : Z) (lr : spec_float) (w w' : world) :
  prof args = false ->
  train data_source epoch lr w = (Ok tt, w') ->
  List.filter not_log_line (new_events w w')
  = EvTrain epoch
      :: flat_map step_events
           (map Z.of_nat (seq 0 (length data_source))).
Proof.
  intros Hprof. rewrite train_unfold. unfold bind.
  match goal with
  | |- context [for_loop ?its ?tl ?body ?w3] =>
      destruct (for_loop its tl body w3) as [[tl'|e] w1] eqn:Hloop
  end; [|discriminate].
  intros H. injection H as <-.
  apply (train_loop_every_batch _ _ _ Hprof) in Hloop.
  destruct Hloop as (evs & Ht & Hevs).
  assert (Hnew : new_events w w1 = EvTrain epoch :: evs).
  { unfold new_events. rewrite Ht.
    destruct w; cbn [trace with_generator with_model with_trace].
    rewrite <- app_assoc. apply drop_app_length. }
  rewrite Hnew. cbn [List.filter not_log_line is_log_line negb].
  rewrite Hevs, enumerate_indices. reflexivity.
Qed.


End Program.

(** *** Promotion of the best checkpoint *)

Lemma is_new_best_score (b v : spec_float) :
  is_new_best (Some (score b)) (score v) = Ok (is_zero b || SFltb v b).
Proof.
  unfold is_new_best, score, truth, tensor_lt; simpl.
  destruct (is_zero b); reflexivity.
Qed.

Lemma promotions_from_nonzero (b : spec_float) (scores : list spec_float) :
  is_zero b = false ->
  Forall (fun v => is_zero v = false) scores ->
  promotions (Some (score b)) scores
  = Ok (strict_improvements (Some b) scores).
Proof.
  intros Hb Hs; revert b Hb.
  induction Hs as [|v rest Hv _ IH]; intros b Hb;
    cbn [promotions strict_improvements]; [reflexivity|].
  rewrite is_new_best_score, Hb; cbn [orb].
  destruct (SFltb v b); [rewrite (IH v Hv)|rewrite (IH b Hb)]; reflexivity.
Qed.

(** X2: when no score is zero, [run_epoch] promotes exactly on the first
    epoch and on strict improvements. *)
Lemma promotions_strict_when_nonzero (scores : list spec_float) :
  Forall (fun v => is_zero v = false) scores ->
  promotions None scores = Ok (strict_improvements None scores).
Proof.
  intros [|v rest Hv Hrest]; cbn [promotions strict_improvements];
    [reflexivity|].
  cbn [is_new_best]. rewrite (promotions_from_nonzero v rest Hv Hrest).
  reflexivity.
Qed.

Lemma promotions_strict_witness :
  promotions None (map F32.of_Z [120; 95; 130; 95]%Z)
  = Ok (strict_improvements None (map F32.of_Z [120; 95; 130; 95]%Z)).
Proof.
  apply (promotions_strict_when_nonzero (map F32.of_Z [120; 95; 130; 95]%Z)).
  repeat constructor.
Defined.

(** Over the scores 120, 95, 130, 95 the epochs that promote are the
    first and the second only. *)
Lemma promotions_example :
  promotions None (map F32.of_Z [120; 95; 130; 95]%Z)
  = Ok [true; true; false; false].
Proof. reflexivity. Qed.


Lemma promotions_after_nan (scores : list spec_float) :
  promotions (Some (score S754_nan)) scores
  = Ok (map (fun _ => false) scores).
Proof.
  induction scores as [|v rest IH]; cbn [promotions map]; [reflexivity|].
  rewrite is_new_best_score. cbn [is_zero orb].
  replace (SFltb v S754_nan) with false by (destruct v; reflexivity).
  rewrite IH. reflexivity.
Qed.

(** X17: a first validation score that is NaN is recorded as the best,
    and then no later epoch is promoted, whatever its score: no score
    compares lower than NaN. *)
Theorem nan_first_score_blocks_promotion (scores : list spec_float) :
  promotions None (S754_nan :: scores)
  = Ok (true :: map (fun _ => false) scores).
Proof.
  cbn [promotions is_new_best]. rewrite promotions_after_nan. reflexivity.
Qed.


End Main.

(** ** A small concrete run

    The remaining parameters of [main.py], instantiated for the one-unit
    network of [Toy]: enough to run training steps, evaluations and whole
    epochs on concrete data. *)

Module ToyRun.
Import Model Main.

Definition gen_forward (m : RNNModel) (data target lengths : Tensor)
  : M rng Tensor := raise NotImplementedError.

(** New parameters: a table of zeros and a unit weight. *)
Definition init_parameters (a : arch) : M rng state_dict :=
  ret [ mkTensor [4; 1]%nat (Floats (map F32.of_Z [0; 0; 0; 0]%Z));
        mkTensor [1; 1]%nat (Floats [F32.one]) ].

(** A single worker runs the whole stage list; with several workers the
    terminal one gets a loss of 1 from upstream and the others none. *)
Definition pipeline_call (r n : Z) (m : network) (input : option Tensor)
  (extra : list Tensor) : M rng (option Tensor * state_dict) :=
  match input, extra with
  | Some x, [_; _] =>
      loss <- Pipeline_forward (Toy.layers (net m)) x extra ;;
      ret (Some loss, [])
  | None, [_; _] => ret (Some (scalar F32.one), [])
  | _, _ => ret (None, [])
  end.

(** Two workers: the first owns the embedding, the second the rest. *)
Definition partition (n r : Z) (p : state_dict) : state_dict :=
  if (n =? 1)%Z then p else if (r =? 0)%Z then take 1 p else skipn 1 p.

Definition clip_grad_norm (g : state_dict) (c : spec_float) : state_dict := g.

Definition adam_step (p g : state_dict) : state_dict := p.

(** A stand-in for [math.exp]: its special values and its overflow, and on
    other arguments the polynomial [1 + x + x^2 / 2]. *)
Definition math_exp (x : spec_float) : result spec_float :=
  match x with
  | S754_nan => Ok S754_nan
  | S754_infinity false => Ok x
  | S754_infinity true => Ok F64.zero
  | _ =>
      if SFltb (F64.of_Z 709) x then Raise OverflowError
      else Ok (F64.add (F64.add (F64.of_Z 1) x)
                 (F64.div (F64.mul x x) (F64.of_Z 2)))
  end.

Definition manual_seed (seed : Z) : rng := Toy.keep_all.

Definition Batch : Type := Tensor * Tensor * Tensor.

Definition process_data (b : Batch) (cuda sep_target : bool)
  : Tensor * Tensor * Tensor := b.

Definition corpus : list Batch := [(Toy.ids, Toy.ids, Toy.lengths)].

Definition args : Args :=
  mkArgs false "linear" "nce" Toy.half F32.one 200 false 2 F32.one
    F32.zero true "toy".

Definition train_batch :=
  Main.train_batch pipeline_call clip_grad_norm adam_step math_exp Batch
    process_data args.

Definition evaluate :=
  Main.evaluate Toy.embedding Toy.lstm Toy.linear Toy.index_linear
    gen_forward init_parameters math_exp Batch process_data args.

Definition run_epoch :=
  Main.run_epoch Toy.embedding Toy.lstm Toy.linear Toy.index_linear
    gen_forward init_parameters pipeline_call partition clip_grad_norm
    adam_step math_exp manual_seed Batch process_data corpus corpus args.

Definition run_epoch_on_all_ranks :=
  Main.run_epoch_on_all_ranks Toy.embedding Toy.lstm Toy.linear
    Toy.index_linear gen_forward init_parameters pipeline_call partition
    clip_grad_norm adam_step math_exp manual_seed Batch process_data corpus
    corpus args.

(** A process of a run with [n] workers, before the first epoch. *)
Definition start (r n : Z) (d : gmap (string * Z) state_dict) : world :=
  mkWorld r n (mkNetwork Linear Toy.train_model) [] Toy.keep_all d [] [].

(** The only worker of a run. *)
Definition alone : world := start 0 1 ∅.

(** The checkpoint directory after the only worker has saved. *)
Definition saved : gmap (string * Z) state_dict :=
  {[ (model_path args, 0%Z) := Toy.weights ]}.



Definition batch : Batch := (Toy.ids, Toy.ids, Toy.lengths).

(** The score of the toy evaluation: [1 + 1.5 + 1.5^2 / 2 = 3.625]. *)
Definition toy_score : Tensor := score (F32.exp2 29 (-3)).





Lemma evaluate_returns_checkpoint_perplexity_witness :
  fst (evaluate (model alone) corpus (start 0 1 saved))
  = math_exp (length_weighted_mean [(F64.div (F64.of_Z 3) (F64.of_Z 2), 2%Z)]).
Proof.
  apply (Main.evaluate_returns_checkpoint_perplexity Toy.embedding Toy.lstm
           Toy.linear Toy.index_linear gen_forward init_parameters math_exp
           Batch process_data args Linear (model alone) corpus
           (start 0 1 saved)
           [ mkTensor [4; 1]%nat (Floats (map F32.of_Z [0; 0; 0; 0]%Z));
             mkTensor [1; 1]%nat (Floats [F32.one]) ]
           Toy.keep_all Toy.keep_all [Toy.weights]).
  - reflexivity.
  - reflexivity.
  - vm_compute. reflexivity.
  - reflexivity.
  - vm_compute. reflexivity.
  - vm_compute. discriminate.
Defined.

Lemma evaluate_empty_raises_witness :
  fst (evaluate (model alone) [] (start 0 1 saved)) = Raise ZeroDivisionError.
Proof.
  apply (Main.evaluate_empty_raises_zero_division Toy.embedding Toy.lstm
           Toy.linear Toy.index_linear gen_forward init_parameters math_exp
           Batch process_data args Linear (model alone) (start 0 1 saved)
           [ mkTensor [4; 1]%nat (Floats (map F32.of_Z [0; 0; 0; 0]%Z));
             mkTensor [1; 1]%nat (Floats [F32.one]) ]
           Toy.keep_all [Toy.weights]).
  - reflexivity.
  - reflexivity.
  - vm_compute. reflexivity.
  - reflexivity.
Defined.



(** *** Further runs *)

(** The options of [args] with another index module, profiling flag and
    log interval. *)
Definition args_with (index_module : string) (prof : bool)
  (log_interval : Z) : Args :=
  mkArgs false index_module "nce" Toy.half F32.one log_interval prof 2
    F32.one F32.zero true "toy".

Definition train (a : Args) :=
  Main.train pipeline_call clip_grad_norm adam_step math_exp manual_seed
    Batch process_data a.

Definition main :=
  Main.main Toy.embedding Toy.lstm Toy.linear Toy.index_linear gen_forward
    init_parameters pipeline_call partition clip_grad_norm adam_step
    math_exp manual_seed Batch process_data corpus corpus corpus args.

(** A batch in which the only example has length 0. *)
Definition empty_batch : Batch :=
  (Toy.ids, Toy.ids, mkTensor [1]%nat (Longs [0]%Z)).

Lemma unsupported_index_module_witness :
  Main.evaluate Toy.embedding Toy.lstm Toy.linear Toy.index_linear
    gen_forward init_parameters math_exp Batch process_data
    (args_with "lstm" false 200) (model alone) corpus alone
  = (Raise NotImplementedError,
     with_trace (fun t => t ++ [EvEvaluate]) alone).
Proof.
  apply (Main.unsupported_index_module_is_rejected Toy.embedding Toy.lstm
           Toy.linear Toy.index_linear gen_forward init_parameters math_exp
           Batch process_data (args_with "lstm" false 200)).
  - discriminate.
  - discriminate.
Defined.

Lemma evaluate_without_tokens_witness :
  fst (evaluate (model alone) [empty_batch] (start 0 1 saved))
  = Raise ZeroDivisionError.
Proof.
  apply (Main.evaluate_without_tokens_raises Toy.embedding Toy.lstm
           Toy.linear Toy.index_linear gen_forward init_parameters math_exp
           Batch process_data args Linear (model alone) [empty_batch]
           (start 0 1 saved)
           [ mkTensor [4; 1]%nat (Floats (map F32.of_Z [0; 0; 0; 0]%Z));
             mkTensor [1; 1]%nat (Floats [F32.one]) ]
           Toy.keep_all Toy.keep_all [Toy.weights] [(S754_nan, 0%Z)]).
  - reflexivity.
  - reflexivity.
  - vm_compute. reflexivity.
  - reflexivity.
  - vm_compute. reflexivity.
  - reflexivity.
Defined.

Lemma train_on_other_ranks_witness :
  new_events (start 0 2 ∅)
    (snd (train args [batch; batch] 1 F32.one (start 0 2 ∅)))
  = EvTrain 1 :: flat_map step_events [0; 1]%Z.
Proof.
  apply (Main.train_on_other_ranks_runs_every_batch pipeline_call
           clip_grad_norm adam_step math_exp manual_seed Batch process_data
           args [batch; batch] 1 F32.one (start 0 2 ∅)).
  - reflexivity.
  - vm_compute. reflexivity.
Defined.

Lemma train_profiling_witness :
  new_events alone
    (snd (train (args_with "linear" true 200) [batch; batch] 1 F32.one alone))
  = EvTrain 1 :: step_events 0.
Proof.
  apply (Main.train_profiling_stops_after_first_batch pipeline_call
           clip_grad_norm adam_step math_exp manual_seed Batch process_data
           (args_with "linear" true 200) [batch; batch] 1 F32.one alone).
  - reflexivity.
  - reflexivity.
  - vm_compute. reflexivity.
Defined.

Lemma train_batch_log_line_witness :
  let out :=
    Main.train_batch pipeline_call clip_grad_norm adam_step math_exp Batch
      process_data (args_with "linear" false 1) 1 F32.one F64.zero
      (1%Z, batch) alone in
  fst out = Ok (false, F64.zero) /\
  new_events alone (snd out)
  = step_events 1
      ++ [EvLogTrain 1 1 (F64.of_Z 3)
            (F64.div (F64.of_Z 17) (F64.of_Z 2))].
Proof.
  exact (Main.train_batch_log_line pipeline_call clip_grad_norm adam_step
           math_exp Batch process_data (args_with "linear" false 1)
           1 1 F32.one F64.zero batch alone Toy.ids Toy.ids Toy.lengths
           (scalar (F32.of_Z 3)) [] (mkRng (fun _ => F32.zero) 2)
           (F64.of_Z 3) eq_refl eq_refl eq_refl eq_refl eq_refl eq_refl
           eq_refl).
Defined.

Lemma train_batch_zero_log_interval_witness :
  fst (Main.train_batch pipeline_call clip_grad_norm adam_step math_exp
         Batch process_data (args_with "linear" false 0) 1 F32.one F64.zero
         (0%Z, batch) alone)
  = Raise ZeroDivisionError.
Proof.
  exact (proj1
    (Main.train_batch_zero_log_interval pipeline_call clip_grad_norm
       adam_step math_exp Batch process_data (args_with "linear" false 0)
       1 0 F32.one F64.zero batch alone Toy.ids Toy.ids Toy.lengths
       (scalar (F32.of_Z 3)) [] (mkRng (fun _ => F32.zero) 2)
       (F64.of_Z 3) eq_refl eq_refl eq_refl eq_refl eq_refl eq_refl)).
Defined.

Lemma run_epoch_checkpoint_files_witness :
  exists held promote,
    is_new_best None held = Ok promote /\
    Some toy_score = (if promote then Some held else None) /\
    model (snd (run_epoch 1 F32.one None alone))
    = model (snd (train args corpus 1 F32.one alone)) /\
    disk (snd (run_epoch 1 F32.one None alone)) !! (model_path args, 0%Z)
    = Some Toy.weights /\
    disk (snd (run_epoch 1 F32.one None alone))
      !! (String.append (model_path args) ".best", 0%Z)
    = (if promote then Some Toy.weights
       else disk alone !! (String.append (model_path args) ".best", 0%Z)) /\
    (forall path r, r <> 0%Z ->
       disk (snd (run_epoch 1 F32.one None alone)) !! (path, r)
       = disk alone !! (path, r)).
Proof.
  apply (Main.run_epoch_checkpoint_files Toy.embedding Toy.lstm Toy.linear
           Toy.index_linear gen_forward init_parameters pipeline_call
           partition clip_grad_norm adam_step math_exp manual_seed Batch
           process_data corpus corpus args 1 F32.one None alone
           (snd (run_epoch 1 F32.one None alone))
           (F32.one, Some toy_score)).
  vm_compute. reflexivity.
Defined.

Lemma main_runs_the_epochs_witness :
  exists evs,
    new_events alone (snd (main alone)) = evs ++ [EvEvaluate] /\
    List.filter is_epoch_start evs = [EvTrain 1; EvTrain 2].
Proof.
  apply (Main.main_runs_the_epochs_then_the_test Toy.embedding Toy.lstm
           Toy.linear Toy.index_linear gen_forward init_parameters
           pipeline_call partition clip_grad_norm adam_step math_exp
           manual_seed Batch process_data corpus corpus corpus args alone
           (snd (main alone)) (F64.div (F64.of_Z 29) (F64.of_Z 8))).
  vm_compute. reflexivity.
Defined.


Lemma train_steps_once_per_batch_witness :
  List.filter not_log_line
    (new_events alone
       (snd (train (args_with "linear" false 1) [batch; batch; batch] 1
               F32.one alone)))
  = EvTrain 1 :: flat_map step_events [0; 1; 2]%Z.
Proof.
  apply (Main.train_steps_once_per_batch pipeline_call clip_grad_norm
           adam_step math_exp manual_seed Batch process_data
           (args_with "linear" false 1) [batch; batch; batch] 1 F32.one
           alone).
  - reflexivity.
  - vm_compute. reflexivity.
Defined.

End ToyRun.
